(** * crypto-price-monitor: threshold evaluation and alerting

    A shallow embedding of [crypto_price_monitor.py]: the static
    configuration [MONITORS], the fetcher [get_crypto_prices], the
    evaluator [check_price_thresholds], the notifier
    [send_discord_alert] and [main], followed by the properties the
    specification states about them.

    Conventions of the embedding.
    - A Python number that reaches the evaluator (an [int] or a finite
      [float] decoded from JSON) is modelled by the rational it denotes.
      Python compares ints and floats by exact value, and the [f]
      presentation rounds the exact value correctly (ties to even), so
      both are functions of that rational.  Not modelled: NaN and the
      infinities, the sign of a negative zero, and ints too large to
      convert to a float exactly; the properties about formatting
      assume [is_double] numbers and say nothing of the sign of a zero.
    - The decoded body of the price endpoint is taken to have its
      documented shape, an object of objects of numbers; a field may be
      missing from a sample, but a field that is present holds a number
      (a null or a string there makes the program raise [TypeError],
      which the model does not have).
    - A [dict] whose iteration order is observed ([MONITORS]) is a list of
      items; a [dict] that is only indexed (the decoded price mapping and
      each sample in it) is a [gmap].
    - Effects are explicit: a computation yields the events it performed
      (lines printed, HTTP requests) and either a value or the exception
      it raised. *)

From Stdlib Require Import ZArith QArith Qabs Qround String Ascii List Lia.
From Stdlib Require Import DecimalString DecimalN DecimalFacts.
From stdpp Require Import gmap strings list fin_maps.

Open Scope string_scope.
Open Scope list_scope.

(** ** Python runtime: strings and number formatting *)

Module Py.

Definition nl : string := String (ascii_of_nat 10) EmptyString.

(** [sep.join(parts)] *)
Definition join (sep : string) (parts : list string) : string :=
  String.concat sep parts.

(** [s * n] *)
Fixpoint str_mul (s : string) (n : nat) : string :=
  match n with
  | O => ""
  | S n' => s +:+ str_mul s n'
  end.

(** [sub in s] on strings *)
Fixpoint contains (s sub : string) : bool :=
  String.prefix sub s ||
  match s with
  | EmptyString => false
  | String _ rest => contains rest sub
  end.

(** [s.startswith(p)] *)
Definition startswith (s p : string) : bool := String.prefix p s.

(** Comparison of numbers: [a <= b] and [a >= b]. *)
Definition le (a b : Q) : bool := Qle_bool a b.
Definition ge (a b : Q) : bool := Qle_bool b a.

(** Nearest integer to a non-negative rational, ties to even. *)
Definition round_half_even (q : Q) : Z :=
  let n := Qnum q in
  let d := Z.pos (Qden q) in
  let f := (n / d)%Z in
  let r := (n mod d)%Z in
  match (2 * r ?= d)%Z with
  | Lt => f
  | Gt => (f + 1)%Z
  | Eq => if Z.even f then f else (f + 1)%Z
  end.

(** |x| in hundredths, rounded. *)
Definition hundredths (x : Q) : Z := round_half_even (Qabs x * 100).

Definition digit (n : Z) : ascii := ascii_of_nat (48 + Z.to_nat n).

(** Decimal digits of a non-negative integer, ["0"] for zero. *)
Definition digits (n : Z) : string :=
  NilZero.string_of_uint (N.to_uint (Z.to_N n)).

Definition two_digits (n : Z) : string :=
  String (digit (n / 10)) (String (digit (n mod 10)) EmptyString).

(** The [,] option: a comma before every group of three digits. *)
Fixpoint commas (ds : string) : string :=
  match ds with
  | EmptyString => EmptyString
  | String c rest =>
      String c
        (if (0 <? String.length rest)%nat && (String.length rest mod 3 =? 0)%nat
         then String "," (commas rest)
         else commas rest)
  end.

(** Default sign option: a minus for negative values only.  (The float
    negative zero, which Python prints with a minus, has no counterpart
    among the rationals; properties about the sign leave zero aside.) *)
Definition sign (x : Q) : string := if Qle_bool 0 x then "" else "-".

(** [f"{x:.2f}"], for [x] the value of a float or of an int that converts
    to a float exactly ([is_double] below). *)
Definition fmt_2f (x : Q) : string :=
  let h := hundredths x in
  sign x +:+ digits (h / 100) +:+ "." +:+ two_digits (h mod 100).

(** [f"{x:,.2f}"], on the same values. *)
Definition fmt_comma_2f (x : Q) : string :=
  let h := hundredths x in
  sign x +:+ commas (digits (h / 100)) +:+ "." +:+ two_digits (h mod 100).

(** Comparison of numbers: [a > b] and [a < b]. *)
Definition gt (a b : Q) : bool := negb (Qle_bool a b).
Definition lt (a b : Q) : bool := negb (Qle_bool b a).

(** The [+] sign option: a sign for every value (zero aside, as for
    [sign]). *)
Definition plus_sign (x : Q) : string := if Qle_bool 0 x then "+" else "-".

(** [f"{x:+.2f}"] *)
Definition fmt_plus_2f (x : Q) : string :=
  let h := hundredths x in
  plus_sign x +:+ digits (h / 100) +:+ "." +:+ two_digits (h mod 100).

End Py.

(** ** Effects: events performed, then a value or an exception *)

Inductive exn :=
  | KeyError (key : string)
  | ConnectionError (msg : string)
  | HTTPError (msg : string)
  | JSONDecodeError (msg : string).

(** [str(e)] *)
Definition str_exn (e : exn) : string :=
  match e with
  | KeyError key => "'" +:+ key +:+ "'"
  | ConnectionError msg => msg
  | HTTPError msg => msg
  | JSONDecodeError msg => msg
  end.

Inductive event :=
  | Stdout (line : string)
  | HttpGet (url : string) (params : list (string * string))
  | HttpPost (url : string) (content username : string).

Inductive outcome (A : Type) :=
  | Raised (e : exn)
  | Returned (a : A).
Arguments Raised {A} e.
Arguments Returned {A} a.

Definition M (A : Type) : Type := (list event * outcome A)%type.

Definition events {A} (m : M A) : list event := fst m.
Definition result {A} (m : M A) : outcome A := snd m.

Definition ret {A} (a : A) : M A := ([], Returned a).

Definition bind {A B} (m : M A) (k : A -> M B) : M B :=
  match m with
  | (t, Raised e) => (t, Raised e)
  | (t, Returned a) => let (t', r) := k a in (t ++ t', r)
  end.

Definition raise {A} (e : exn) : M A := ([], Raised e).

Definition emit (ev : event) : M unit := ([ev], Returned tt).

(** [print(line)] *)
Definition print (line : string) : M unit := emit (Stdout line).

(** [try: body  except Exception as e: handler(e)] *)
Definition try_except {A} (body : M A) (handler : exn -> M A) : M A :=
  match body with
  | (t, Raised e) => let (t', r) := handler e in (t ++ t', r)
  | (t, Returned a) => (t, Returned a)
  end.

Notation "x <- m ;; k" := (bind m (fun x => k))
  (at level 100, m at next level, right associativity).
Notation "m ;;; k" := (bind m (fun _ => k))
  (at level 100, right associativity).

(** [d[key]] on a dict *)
Definition getitem {V} (d : gmap string V) (key : string) : M V :=
  match d !! key with
  | Some v => ret v
  | None => raise (KeyError key)
  end.

(** [d.get(key, dflt)] *)
Definition get {V} (d : gmap string V) (key : string) (dflt : V) : V :=
  default dflt (d !! key).

(** ** Configuration and price data *)

Record thresholds := {
  symbol : string;
  low_threshold : Q;
  high_threshold : Q
}.

(** [MONITORS.items()], in insertion order. *)
Definition MONITORS : list (string * thresholds) :=
  [ ("bitcoin",     {| symbol := "BTC"; low_threshold := 40000%Q; high_threshold := 70000%Q |});
    ("ethereum",    {| symbol := "ETH"; low_threshold := 2500%Q; high_threshold := 4000%Q |});
    ("binancecoin", {| symbol := "BNB"; low_threshold := 300%Q; high_threshold := 500%Q |}) ].

Definition COINGECKO_API_URL : string := "https://api.coingecko.com/api/v3/simple/price".

(** [d.keys()], in insertion order.  In a dict they are pairwise distinct,
    which the properties below assume as [NoDup (dict_keys monitors)]. *)
Definition dict_keys (items : list (string * thresholds)) : list string := map fst items.

(** ** Alert messages *)

Definition below_alert_msg (symbol : string) (current_price low change_24h : Q) : string :=
  "📉 **" +:+ symbol +:+ "** 跌破预警线！" +:+ Py.nl +:+
  "当前价格: $" +:+ Py.fmt_comma_2f current_price +:+ Py.nl +:+
  "预警线: $" +:+ Py.fmt_comma_2f low +:+ Py.nl +:+
  "24小时变化: " +:+ Py.fmt_2f change_24h +:+ "%".

Definition above_alert_msg (symbol : string) (current_price high change_24h : Q) : string :=
  "📈 **" +:+ symbol +:+ "** 突破预警线！" +:+ Py.nl +:+
  "当前价格: $" +:+ Py.fmt_comma_2f current_price +:+ Py.nl +:+
  "预警线: $" +:+ Py.fmt_comma_2f high +:+ Py.nl +:+
  "24小时变化: " +:+ Py.fmt_2f change_24h +:+ "%".

Definition price_log_line (symbol : string) (current_price change_24h : Q) : string :=
  symbol +:+ ": $" +:+ Py.fmt_comma_2f current_price +:+
  " (24h: " +:+ Py.fmt_2f change_24h +:+ "%)".

(** The direction of an alert is read off its leading emoji. *)
Inductive direction := below | above.

Definition emoji (d : direction) : string :=
  match d with
  | below => "📉"
  | above => "📈"
  end.

Definition direction_of (alert_msg : string) : option direction :=
  if Py.startswith alert_msg (emoji below) then Some below
  else if Py.startswith alert_msg (emoji above) then Some above
  else None.


(** ** The evaluator *)

(** The body of [check_price_thresholds]: the loop over
    [monitors.items()], with the list [alerts] built so far. *)
Fixpoint for_monitors (items : list (string * thresholds))
    (prices : gmap string (gmap string Q)) (alerts : list string) : M (list string) :=
  match items with
  | [] => ret alerts
  | (coin_id, thresholds) :: rest =>
      match prices !! coin_id with
      | Some sample =>
          current_price <- getitem sample "usd" ;;
          let symbol := symbol thresholds in
          let change_24h := get sample "usd_24h_change" 0%Q in
          let alerts :=
            if Py.le current_price (low_threshold thresholds) then
              alerts ++ [below_alert_msg symbol current_price (low_threshold thresholds) change_24h]
            else if Py.ge current_price (high_threshold thresholds) then
              alerts ++ [above_alert_msg symbol current_price (high_threshold thresholds) change_24h]
            else alerts in
          print (price_log_line symbol current_price change_24h) ;;;
          for_monitors rest prices alerts
      | None => for_monitors rest prices alerts
      end
  end.

Definition check_price_thresholds (monitors : list (string * thresholds))
    (prices : gmap string (gmap string Q)) : M (list string) :=
  for_monitors monitors prices [].

(** ** The outside world: clock, environment, HTTP *)

(** What [response.json()] does with the body. *)
Inductive body :=
  | Malformed (err : string)
  | PriceMapping (prices : gmap string (gmap string Q)).

Record Response := {
  status_code : Z;
  reason : string;
  url : string;
  content : body
}.

(** What a request comes back with: an exception of the transport, or a
    response. *)
Inductive reply :=
  | NoResponse (err : string)
  | Got (response : Response).

Record world := {
  now : string;                          (* str(datetime.now()) *)
  DISCORD_WEBHOOK_URL : option string;   (* os.environ.get('DISCORD_WEBHOOK_URL') *)
  get_reply : reply;                     (* to the one GET of a run *)
  post_reply : nat -> reply              (* to the n-th POST of a run *)
}.

Definition requests_get (w : world) (url : string) (params : list (string * string))
    : M Response :=
  emit (HttpGet url params) ;;;
  match get_reply w with
  | NoResponse err => raise (ConnectionError err)
  | Got response => ret response
  end.

Definition requests_post (w : world) (n : nat) (url content username : string)
    : M Response :=
  emit (HttpPost url content username) ;;;
  match post_reply w n with
  | NoResponse err => raise (ConnectionError err)
  | Got response => ret response
  end.

(** [response.raise_for_status()] of the requests library: an [HTTPError]
    for the 4xx and 5xx status codes, nothing otherwise. *)
Definition raise_for_status (response : Response) : M unit :=
  let code := status_code response in
  if (400 <=? code)%Z && (code <? 500)%Z then
    raise (HTTPError (Py.digits code +:+ " Client Error: " +:+ reason response
                        +:+ " for url: " +:+ url response))
  else if (500 <=? code)%Z && (code <? 600)%Z then
    raise (HTTPError (Py.digits code +:+ " Server Error: " +:+ reason response
                        +:+ " for url: " +:+ url response))
  else ret tt.

(** [response.json()], for a body that either does not decode or decodes
    to a price mapping; bodies that decode to another JSON value are
    outside the model. *)
Definition response_json (response : Response) : M (gmap string (gmap string Q)) :=
  match content response with
  | Malformed err => raise (JSONDecodeError err)
  | PriceMapping prices => ret prices
  end.

(** ** The fetcher *)

(** [None] is the failure signal. *)
Definition get_crypto_prices (monitors : list (string * thresholds)) (w : world)
    : M (option (gmap string (gmap string Q))) :=
  try_except
    (let ids := Py.join "," (dict_keys monitors) in
     let params := [ ("ids", ids);
                     ("vs_currencies", "usd");
                     ("include_24hr_change", "true") ] in
     response <- requests_get w COINGECKO_API_URL params ;;
     raise_for_status response ;;;
     prices <- response_json response ;;
     ret (Some prices))
    (fun e =>
       print ("获取价格失败: " +:+ str_exn e) ;;;
       ret None).

(** ** The notifier *)

(** [not DISCORD_WEBHOOK_URL] *)
Definition webhook_unset (w : world) : bool :=
  match DISCORD_WEBHOOK_URL w with
  | None => true
  | Some EmptyString => true
  | Some _ => false
  end.

(** [n] counts the POSTs made before this call. *)
Definition send_discord_alert (w : world) (n : nat) (message : string) : M unit :=
  if webhook_unset w then
    print "未设置Discord Webhook URL"
  else
    try_except
      (let content := "🚨 **加密货币价格提醒** 🚨" +:+ Py.nl +:+ message in
       response <- requests_post w n (default "" (DISCORD_WEBHOOK_URL w))
                     content "Crypto Price Bot" ;;
       raise_for_status response ;;;
       print ("提醒已发送: " +:+ message))
      (fun e => print ("发送Discord提醒失败: " +:+ str_exn e)).

(** ** Main *)

(** [for alert in alerts: send_discord_alert(alert)] *)
Fixpoint for_alerts (w : world) (n : nat) (alerts : list string) : M unit :=
  match alerts with
  | [] => ret tt
  | alert :: rest => send_discord_alert w n alert ;;; for_alerts w (S n) rest
  end.

(** [not prices]: the failure signal and the empty mapping are falsy. *)
Definition not_prices (prices : option (gmap string (gmap string Q))) : bool :=
  match prices with
  | None => true
  | Some d => (size d =? 0)%nat
  end.

(** [main], with the evaluator it calls as a parameter. *)
Definition main_with
    (evaluator : gmap string (gmap string Q) -> M (list string))
    (monitors : list (string * thresholds)) (w : world) : M unit :=
  print (Py.str_mul "=" 50) ;;;
  print ("开始监控 - " +:+ now w) ;;;
  print (Py.str_mul "=" 50) ;;;
  prices <- get_crypto_prices monitors w ;;
  if not_prices prices then
    print "无法获取价格数据"
  else
    alerts <- evaluator (default ∅ prices) ;;
    match alerts with
    | [] => print "没有触发任何价格阈值"
    | _ :: _ => for_alerts w 0 alerts
    end.

Definition main (w : world) : M unit :=
  main_with (check_price_thresholds MONITORS) MONITORS w.

(** ** Vocabulary of the specification *)

(** Every sample listed for a configured coin carries a price (the
    specification's [PriceSample] has a mandatory [price_usd]). *)
Definition priced (monitors : list (string * thresholds))
    (prices : gmap string (gmap string Q)) : bool :=
  forallb (fun item : string * thresholds =>
             match prices !! item.1 with
             | Some sample => bool_decide (is_Some (sample !! "usd"))
             | None => true
             end) monitors.

(** What the specification asks for one coin with a price. *)
Definition alerts_for_price (thresholds : thresholds) (price change_24h : Q)
    : list string :=
  if Py.le price (low_threshold thresholds) then
    [below_alert_msg (symbol thresholds) price (low_threshold thresholds) change_24h]
  else if Py.ge price (high_threshold thresholds) then
    [above_alert_msg (symbol thresholds) price (high_threshold thresholds) change_24h]
  else [].

Definition alerts_of (prices : gmap string (gmap string Q))
    (item : string * thresholds) : list string :=
  match prices !! item.1 with
  | Some sample =>
      match sample !! "usd" with
      | Some price => alerts_for_price item.2 price (get sample "usd_24h_change" 0%Q)
      | None => []
      end
  | None => []
  end.

Definition lines_of (prices : gmap string (gmap string Q))
    (item : string * thresholds) : list event :=
  match prices !! item.1 with
  | Some sample =>
      match sample !! "usd" with
      | Some price =>
          [Stdout (price_log_line (symbol item.2) price (get sample "usd_24h_change" 0%Q))]
      | None => []
      end
  | None => []
  end.

(** The evaluator emits exactly [xs] for [coin_id]: the alerts it returns
    are those of the coins configured before [coin_id], then [xs], then
    those of the coins configured after it. *)
Definition emits_for (monitors : list (string * thresholds))
    (prices : gmap string (gmap string Q)) (coin_id : string)
    (xs : list string) : Prop :=
  ∃ before thresholds after alerts_before alerts_after,
    monitors = before ++ (coin_id, thresholds) :: after ∧
    (coin_id ∉ dict_keys before) ∧
    (coin_id ∉ dict_keys after) ∧
    result (check_price_thresholds before prices) = Returned alerts_before ∧
    result (check_price_thresholds after prices) = Returned alerts_after ∧
    result (check_price_thresholds monitors prices)
      = Returned (alerts_before ++ xs ++ alerts_after).







(** The three lines [main] prints first. *)
Definition banner (w : world) : list event :=
  [ Stdout (Py.str_mul "=" 50);
    Stdout ("开始监控 - " +:+ now w);
    Stdout (Py.str_mul "=" 50) ].

(** The request the fetcher makes. *)
Definition price_request (monitors : list (string * thresholds)) : event :=
  HttpGet COINGECKO_API_URL
    [ ("ids", Py.join "," (dict_keys monitors));
      ("vs_currencies", "usd");
      ("include_24hr_change", "true") ].

(** The fetch fails with exception [e]: the transport raises, the status
    is one [raise_for_status] rejects, or the body does not decode. *)
Definition fetch_error (w : world) : option exn :=
  match get_reply w with
  | NoResponse err => Some (ConnectionError err)
  | Got response =>
      match result (raise_for_status response) with
      | Raised e => Some e
      | Returned _ =>
          match content response with
          | Malformed err => Some (JSONDecodeError err)
          | PriceMapping _ => None
          end
      end
  end.

Definition is_post (ev : event) : bool :=
  match ev with
  | HttpPost _ _ _ => true
  | _ => false
  end.

Definition is_stdout (ev : event) : bool :=
  match ev with
  | Stdout _ => true
  | _ => false
  end.

(** ** The summary *)

(** The marker [create_summary] puts before a coin: by the sign of the
    24-hour change. *)
Definition change_emoji (change : Q) : string :=
  if Py.gt change 0 then "🟢" else if Py.lt change 0 then "🔴" else "⚪".

(** The body of [create_summary]: the loop over [monitors.items()], with
    the text [summary] built so far. *)
Fixpoint for_summary (items : list (string * thresholds))
    (prices : gmap string (gmap string Q)) (summary : string) : M string :=
  match items with
  | [] => ret summary
  | (coin_id, thresholds) :: rest =>
      match prices !! coin_id with
      | Some sample =>
          let symbol := symbol thresholds in
          price <- getitem sample "usd" ;;
          let change := get sample "usd_24h_change" 0%Q in
          let emoji := change_emoji change in
          for_summary rest prices
            (summary +:+ emoji +:+ " **" +:+ symbol +:+ "**: $"
               +:+ Py.fmt_comma_2f price +:+ " (" +:+ Py.fmt_plus_2f change
               +:+ "%)" +:+ Py.nl)
      | None => for_summary rest prices summary
      end
  end.

(** [stamp] is [datetime.now().strftime('%Y-%m-%d %H:%M UTC')]. *)
Definition create_summary (monitors : list (string * thresholds))
    (stamp : string) (prices : gmap string (gmap string Q)) : M string :=
  for_summary monitors prices
    ("📊 **价格更新** - " +:+ stamp +:+ Py.nl +:+ Py.nl).

(** ** More vocabulary *)

Definition is_get (ev : event) : bool :=
  match ev with
  | HttpGet _ _ => true
  | _ => false
  end.

(** The request that delivers [alert] to the webhook at [url]. *)
Definition delivery (url alert : string) : event :=
  HttpPost url ("🚨 **加密货币价格提醒** 🚨" +:+ Py.nl +:+ alert) "Crypto Price Bot".

(** The webhook accepts the [n]-th POST: it answers, with a status that
    [raise_for_status] lets through. *)
Definition accepted (w : world) (n : nat) : bool :=
  match post_reply w n with
  | NoResponse _ => false
  | Got response =>
      negb ((400 <=? status_code response)%Z && (status_code response <? 600)%Z)
  end.

(** The exception a refused [n]-th POST ends in. *)
Definition delivery_error (w : world) (n : nat) : option exn :=
  match post_reply w n with
  | NoResponse err => Some (ConnectionError err)
  | Got response =>
      match result (raise_for_status response) with
      | Raised e => Some e
      | Returned _ => None
      end
  end.

(** Two price mappings agree on what the evaluator reads: for every
    configured coin, a sample is present in both or in neither, with the
    same price and the same 24-hour change. *)
Definition same_readings (monitors : list (string * thresholds))
    (prices prices' : gmap string (gmap string Q)) : Prop :=
  forall coin_id, coin_id ∈ dict_keys monitors ->
    match prices !! coin_id, prices' !! coin_id with
    | Some sample, Some sample' =>
        sample !! "usd" = sample' !! "usd"
        /\ sample !! "usd_24h_change" = sample' !! "usd_24h_change"
    | None, None => True
    | _, _ => False
    end.

(** The line of the summary for one configured coin. *)
Definition summary_line (thresholds : thresholds) (price change : Q) : string :=
  change_emoji change +:+ " **" +:+ symbol thresholds +:+ "**: $"
    +:+ Py.fmt_comma_2f price +:+ " (" +:+ Py.fmt_plus_2f change
    +:+ "%)" +:+ Py.nl.

Definition summary_of (prices : gmap string (gmap string Q))
    (item : string * thresholds) : string :=
  match prices !! item.1 with
  | Some sample =>
      match sample !! "usd" with
      | Some price => summary_line item.2 price (get sample "usd_24h_change" 0%Q)
      | None => ""
      end
  | None => ""
  end.

(** The first line of the summary and the blank line after it. *)
Definition summary_header (stamp : string) : string :=
  "📊 **价格更新** - " +:+ stamp +:+ Py.nl +:+ Py.nl.

(** The lines of the configured coins, one after the other. *)
Definition summary_text (prices : gmap string (gmap string Q))
    (monitors : list (string * thresholds)) : string :=
  fold_right (fun item rest => summary_of prices item +:+ rest) "" monitors.

(** ** Numbers that are exactly a float *)




(** ** Sample inputs *)

(** Binance coin exactly at its high threshold, no 24-hour change given. *)
Definition bnb_at_high : gmap string (gmap string Q) :=
  {[ "binancecoin" := {[ "usd" := 500%Q ]} ]}.


(** Bitcoin between its thresholds. *)
Definition btc_calm : gmap string (gmap string Q) :=
  {[ "bitcoin" := {[ "usd" := 55000%Q ]} ]}.

(** A bitcoin sample without a price. *)
Definition btc_unpriced : gmap string (gmap string Q) :=
  {[ "bitcoin" := ∅ ]}.

(** Bitcoin below its low threshold and Binance coin at its high one. *)
Definition btc_low_bnb_high : gmap string (gmap string Q) :=
  {[ "bitcoin" := {[ "usd" := 39000%Q ]};
     "binancecoin" := {[ "usd" := 500%Q ]} ]}.

(** A configuration with the two thresholds the wrong way round. *)
Definition inverted : list (string * thresholds) :=
  [ ("binancecoin",
     {| symbol := "BNB"; low_threshold := 500%Q; high_threshold := 300%Q |}) ].

Definition bnb_400 : gmap string (gmap string Q) :=
  {[ "binancecoin" := {[ "usd" := 400%Q ]} ]}.

Definition bnb_600 : gmap string (gmap string Q) :=
  {[ "binancecoin" := {[ "usd" := 600%Q ]} ]}.

(** Worlds: a dead network, a server error, a body that is not JSON, a
    300 reply that carries a price mapping, and a 200 reply with an empty
    mapping.  The webhook accepts every POST. *)
Definition webhook_ok (n : nat) : reply :=
  Got {| status_code := 204; reason := "No Content";
         url := "https://discord.example/api/webhooks/1"; content := Malformed "" |}.

Definition world_with (r : reply) : world :=
  {| now := "2024-05-01 12:00:00.000000";
     DISCORD_WEBHOOK_URL := Some "https://discord.example/api/webhooks/1";
     get_reply := r;
     post_reply := webhook_ok |}.

Definition world_down : world :=
  world_with (NoResponse "Connection refused").

Definition world_503 : world :=
  world_with (Got {| status_code := 503; reason := "Service Unavailable";
                     url := COINGECKO_API_URL; content := PriceMapping bnb_at_high |}).

Definition world_garbled : world :=
  world_with (Got {| status_code := 200; reason := "OK";
                     url := COINGECKO_API_URL;
                     content := Malformed "Expecting value: line 1 column 1 (char 0)" |}).

Definition world_300 : world :=
  world_with (Got {| status_code := 300; reason := "Multiple Choices";
                     url := COINGECKO_API_URL; content := PriceMapping bnb_at_high |}).

Definition world_empty : world :=
  world_with (Got {| status_code := 200; reason := "OK";
                     url := COINGECKO_API_URL; content := PriceMapping ∅ |}).

(** An evaluator that would make itself noticed if it were called. *)
Definition tripwire (prices : gmap string (gmap string Q)) : M (list string) :=
  raise (KeyError "evaluator called").

(** Bitcoin's sample is complete; binance coin's lacks a price. *)
Definition btc_then_unpriced_bnb : gmap string (gmap string Q) :=
  {[ "bitcoin" := {[ "usd" := 55000%Q ]};
     "binancecoin" := {[ "usd_24h_change" := 1%Q ]} ]}.

(** [bnb_at_high] with fields and coins the monitor does not read. *)
Definition bnb_at_high_verbose : gmap string (gmap string Q) :=
  {[ "binancecoin" := {[ "usd" := 500%Q; "usd_24h_vol" := 123456789%Q;
                         "last_updated_at" := 1714564800%Q ]};
     "solana" := {[ "usd" := 150%Q ]} ]}.

(** Worlds with a successful fetch. *)
Definition world_ok (prices : gmap string (gmap string Q)) : world :=
  world_with (Got {| status_code := 200; reason := "OK";
                     url := COINGECKO_API_URL; content := PriceMapping prices |}).

(** The webhook refuses the first POST and accepts the others. *)
Definition webhook_flaky (n : nat) : reply :=
  match n with
  | O => Got {| status_code := 429; reason := "Too Many Requests";
                url := "https://discord.example/api/webhooks/1";
                content := Malformed "" |}
  | S _ => webhook_ok n
  end.

Definition world_flaky (prices : gmap string (gmap string Q)) : world :=
  {| now := "2024-05-01 12:00:00.000000";
     DISCORD_WEBHOOK_URL := Some "https://discord.example/api/webhooks/1";
     get_reply := Got {| status_code := 200; reason := "OK";
                         url := COINGECKO_API_URL; content := PriceMapping prices |};
     post_reply := webhook_flaky |}.

(** No webhook configured: the variable is set, but empty. *)
Definition world_mute (prices : gmap string (gmap string Q)) : world :=
  {| now := "2024-05-01 12:00:00.000000";
     DISCORD_WEBHOOK_URL := Some "";
     get_reply := Got {| status_code := 200; reason := "OK";
                         url := COINGECKO_API_URL; content := PriceMapping prices |};
     post_reply := webhook_ok |}.


(** * Properties *)

(** ** Formatting, checked against CPython's output *)

(** [39999.99] and [-1.2] are the doubles nearest to those decimals. *)
Example fmt_price_example :
  Py.fmt_comma_2f (5497556764490465 # 137438953472) = "39,999.99"
  /\ Py.fmt_comma_2f 39999.99 = "39,999.99".
Proof. split; vm_compute; reflexivity. Qed.

Example fmt_change_example :
  Py.fmt_2f (-5404319552844595 # 4503599627370496) = "-1.20"
  /\ Py.fmt_2f (-1.2) = "-1.20".
Proof. split; vm_compute; reflexivity. Qed.

(** Exact ties go to the even neighbour. *)
Example fmt_ties : Py.fmt_2f (1 # 8) = "0.12" /\ Py.fmt_2f (3 # 8) = "0.38".
Proof. split; vm_compute; reflexivity. Qed.

Example fmt_grouping :
  Py.fmt_comma_2f (5302428716536693 # 4294967296) = "1,234,567.89"
  /\ Py.fmt_comma_2f (8796049041742889 # 8796093022208) = "1,000.00"
  /\ Py.fmt_comma_2f (8589934549050327 # 8589934592) = "999,999.99"
  /\ Py.fmt_comma_2f 55000 = "55,000.00".
Proof. repeat split; vm_compute; reflexivity. Qed.

Example fmt_zero :
  Py.fmt_2f 0 = "0.00"
  /\ Py.fmt_2f (-1152921504606847 # 1152921504606846976) = "-0.00".
Proof. split; vm_compute; reflexivity. Qed.

(** ** Formatting: shape and value of the output *)

















Lemma round_half_even_comp (q q' : Q) :
  (q == q')%Q -> Py.round_half_even q = Py.round_half_even q'.
Proof.
  intros E. pose proof (Qfloor_comp _ _ E) as Hf.
  unfold Py.round_half_even. destruct q as [n d], q' as [n' d'].
  unfold Qfloor in Hf. unfold Qeq in E. cbn [Qnum Qden] in *.
  rewrite <- Hf. set (f := (n / Z.pos d)%Z) in *.
  pose proof (Z.div_mod n (Z.pos d) ltac:(lia)) as E1.
  pose proof (Z.div_mod n' (Z.pos d') ltac:(lia)) as E2.
  rewrite <- Hf in E2. fold f in E1.
  set (r := (n mod Z.pos d)%Z) in *. set (r' := (n' mod Z.pos d')%Z) in *.
  assert (Hr : (r * Z.pos d' = r' * Z.pos d)%Z) by nia.
  assert (Hc : (2 * r ?= Z.pos d)%Z = (2 * r' ?= Z.pos d')%Z).
  { destruct (Z.compare_spec (2 * r) (Z.pos d));
      destruct (Z.compare_spec (2 * r') (Z.pos d')); try reflexivity; nia. }
  by rewrite Hc.
Qed.

Lemma fmt_2f_comp (x y : Q) : (x == y)%Q -> Py.fmt_2f x = Py.fmt_2f y.
Proof.
  intros E. unfold Py.fmt_2f, Py.hundredths, Py.sign.
  rewrite (round_half_even_comp (Qabs x * 100) (Qabs y * 100)) by (by rewrite E).
  by rewrite (Qleb_comp 0%Q 0%Q (Qeq_refl 0%Q) x y E).
Qed.

Lemma fmt_comma_2f_comp (x y : Q) : (x == y)%Q -> Py.fmt_comma_2f x = Py.fmt_comma_2f y.
Proof.
  intros E. unfold Py.fmt_comma_2f, Py.hundredths, Py.sign.
  rewrite (round_half_even_comp (Qabs x * 100) (Qabs y * 100)) by (by rewrite E).
  by rewrite (Qleb_comp 0%Q 0%Q (Qeq_refl 0%Q) x y E).
Qed.






(** ** Strings *)

Lemma append_cons (x : ascii) (a b : string) :
  String x a +:+ b = String x (a +:+ b).
Proof. reflexivity. Qed.


Lemma append_nil_r (a : string) : a +:+ "" = a.
Proof. induction a as [|x a IH]; [reflexivity | by rewrite append_cons, IH]. Qed.

Lemma append_assoc (a b c : string) : (a +:+ b) +:+ c = a +:+ (b +:+ c).
Proof.
  induction a as [|x a IH]; [reflexivity | by rewrite !append_cons, IH].
Qed.

Lemma prefix_append (p s : string) : String.prefix p (p +:+ s) = true.
Proof.
  induction p as [|x p IH].
  - by destruct s.
  - rewrite append_cons. simpl.
    destruct (ascii_dec x x); [exact IH | congruence].
Qed.

Lemma contains_prefix (s sub : string) :
  String.prefix sub s = true -> Py.contains s sub = true.
Proof. intros H. destruct s; unfold Py.contains; rewrite H; reflexivity. Qed.

Lemma contains_here (sub post : string) : Py.contains (sub +:+ post) sub = true.
Proof. apply contains_prefix, prefix_append. Qed.

(** ** The evaluator's loop, one iteration at a time *)

Lemma alerts_step (th : thresholds) (price change : Q) (acc : list string) :
  (if Py.le price (low_threshold th) then
     acc ++ [below_alert_msg (symbol th) price (low_threshold th) change]
   else if Py.ge price (high_threshold th) then
     acc ++ [above_alert_msg (symbol th) price (high_threshold th) change]
   else acc)
  = acc ++ alerts_for_price th price change.
Proof.
  unfold alerts_for_price.
  destruct (Py.le _ _); [reflexivity |].
  destruct (Py.ge _ _); [reflexivity |].
  by rewrite app_nil_r.
Qed.

Lemma for_monitors_cons (c : string) (th : thresholds)
    (rest : list (string * thresholds)) (prices : gmap string (gmap string Q))
    (acc : list string) :
  for_monitors ((c, th) :: rest) prices acc =
  match prices !! c with
  | None => for_monitors rest prices acc
  | Some sample =>
      match sample !! "usd" with
      | None => ([], Raised (KeyError "usd"))
      | Some price =>
          let change := get sample "usd_24h_change" 0%Q in
          let m := for_monitors rest prices (acc ++ alerts_for_price th price change) in
          (Stdout (price_log_line (symbol th) price change) :: events m, result m)
      end
  end.
Proof.
  cbn [for_monitors]. destruct (prices !! c) as [sample|]; [| reflexivity].
  unfold getitem. destruct (sample !! "usd") as [price|]; [| reflexivity].
  unfold bind at 1, ret at 1. rewrite alerts_step.
  unfold bind, print, emit, events, result.
  destruct (for_monitors rest prices _) as [t [e|xs]]; reflexivity.
Qed.

Lemma priced_cons (c : string) (th : thresholds)
    (rest : list (string * thresholds)) (prices : gmap string (gmap string Q)) :
  priced ((c, th) :: rest) prices = true ->
  priced rest prices = true /\
  forall sample, prices !! c = Some sample -> exists price, sample !! "usd" = Some price.
Proof.
  unfold priced. simpl. intros [H1 H2]%andb_true_iff. split; [exact H2 |].
  intros sample Hs. rewrite Hs in H1. apply bool_decide_eq_true in H1.
  destruct H1 as [price Hp]. by exists price.
Qed.

Lemma priced_app (l1 l2 : list (string * thresholds))
    (prices : gmap string (gmap string Q)) :
  priced (l1 ++ l2) prices = priced l1 prices && priced l2 prices.
Proof. unfold priced. apply forallb_app. Qed.

(** With every listed sample priced, the loop returns, having printed one
    line and appended the alerts of each coin in turn. *)
Lemma for_monitors_priced (items : list (string * thresholds))
    (prices : gmap string (gmap string Q)) (acc : list string) :
  priced items prices = true ->
  for_monitors items prices acc =
    (flat_map (lines_of prices) items,
     Returned (acc ++ flat_map (alerts_of prices) items)).
Proof.
  revert acc. induction items as [| [c th] rest IH]; intros acc Hp.
  - simpl. by rewrite app_nil_r.
  - apply priced_cons in Hp as [Hrest Hc].
    rewrite for_monitors_cons. simpl. unfold lines_of at 1, alerts_of at 1. simpl.
    destruct (prices !! c) as [sample|] eqn:Hs.
    + destruct (Hc sample eq_refl) as [price Hprice]. rewrite Hprice. cbv zeta.
      rewrite (IH _ Hrest). unfold events, result. simpl.
      by rewrite <- app_assoc.
    + by apply IH.
Qed.

Lemma check_priced (monitors : list (string * thresholds))
    (prices : gmap string (gmap string Q)) :
  priced monitors prices = true ->
  check_price_thresholds monitors prices =
    (flat_map (lines_of prices) monitors,
     Returned (flat_map (alerts_of prices) monitors)).
Proof. intros Hp. unfold check_price_thresholds. by rewrite for_monitors_priced. Qed.

(** ** Directions *)

Lemma direction_of_below (symbol : string) (price low change : Q) :
  direction_of (below_alert_msg symbol price low change) = Some below.
Proof. reflexivity. Qed.

Lemma direction_of_above (symbol : string) (price high change : Q) :
  direction_of (above_alert_msg symbol price high change) = Some above.
Proof. reflexivity. Qed.

(** ** The evaluator on the specification's examples *)

Example calm_price_no_alert :
  check_price_thresholds MONITORS btc_calm
    = ([Stdout "BTC: $55,000.00 (24h: 0.00%)"], Returned []).
Proof. vm_compute. reflexivity. Qed.

Example boundary_price_alerts :
  result (check_price_thresholds MONITORS bnb_at_high)
    = Returned [above_alert_msg "BNB" 500 500 0].
Proof. vm_compute. reflexivity. Qed.

(** [prices[coin_id]['usd']] on a sample without a price raises; this is
    what [priced] rules out. *)
Example unpriced_sample_raises :
  check_price_thresholds MONITORS btc_unpriced = ([], Raised (KeyError "usd")).
Proof. vm_compute. reflexivity. Qed.

(** ** A coin's place in the configuration *)

Lemma dict_keys_app (l1 l2 : list (string * thresholds)) :
  dict_keys (l1 ++ l2) = dict_keys l1 ++ dict_keys l2.
Proof. unfold dict_keys. apply map_app. Qed.

(** A key marks one place in a dict. *)
Lemma split_at_key (c : string) (th th' : thresholds)
    (b b' a a' : list (string * thresholds)) :
  c ∉ dict_keys b -> c ∉ dict_keys b' ->
  b ++ (c, th) :: a = b' ++ (c, th') :: a' ->
  b = b' /\ th = th' /\ a = a'.
Proof.
  revert b'. induction b as [| [k v] b IH]; intros [| [k' v'] b'] Hb Hb' E;
    simpl in E.
  - by injection E as -> ->.
  - injection E as -> _ _. exfalso. apply Hb'. simpl. apply list_elem_of_here.
  - injection E as -> _ _. exfalso. apply Hb. simpl. apply list_elem_of_here.
  - injection E as -> -> E.
    destruct (IH b') as (-> & -> & ->); [| | exact E | done].
    + intros H. apply Hb. simpl. by apply list_elem_of_further.
    + intros H. apply Hb'. simpl. by apply list_elem_of_further.
Qed.

Lemma place_of_key (monitors : list (string * thresholds)) (c : string)
    (th : thresholds) :
  NoDup (dict_keys monitors) -> (c, th) ∈ monitors ->
  exists before after,
    monitors = before ++ (c, th) :: after
    /\ (c ∉ dict_keys before) /\ (c ∉ dict_keys after).
Proof.
  intros Hnd Hin. apply list_elem_of_split in Hin as (before & after & ->).
  exists before, after. split; [reflexivity |].
  rewrite dict_keys_app in Hnd. simpl in Hnd.
  apply NoDup_app in Hnd as (_ & Hdisj & Hnd).
  apply NoDup_cons in Hnd as [Hafter _]. split; [| exact Hafter].
  intros Hb. apply (Hdisj c Hb). apply list_elem_of_here.
Qed.

(** ** What the evaluator emits for one coin *)

Lemma emits_for_alerts_of (monitors : list (string * thresholds))
    (prices : gmap string (gmap string Q)) (c : string) (th : thresholds) :
  NoDup (dict_keys monitors) -> priced monitors prices = true ->
  (c, th) ∈ monitors ->
  emits_for monitors prices c (alerts_of prices (c, th)).
Proof.
  intros Hnd Hp Hin.
  destruct (place_of_key _ _ _ Hnd Hin) as (before & after & -> & Hb & Ha).
  pose proof Hp as Hp'. rewrite priced_app in Hp'.
  apply andb_true_iff in Hp' as [Hpb Hpa].
  change ((c, th) :: after) with ([(c, th)] ++ after) in Hpa.
  rewrite priced_app in Hpa. apply andb_true_iff in Hpa as [_ Hpa].
  exists before, th, after, (flat_map (alerts_of prices) before),
    (flat_map (alerts_of prices) after).
  repeat split; try assumption.
  - by rewrite check_priced.
  - by rewrite check_priced.
  - rewrite check_priced by assumption. simpl.
    by rewrite flat_map_app.
Qed.

Lemma emits_for_unique (monitors : list (string * thresholds))
    (prices : gmap string (gmap string Q)) (c : string) (xs ys : list string) :
  emits_for monitors prices c xs -> emits_for monitors prices c ys -> xs = ys.
Proof.
  intros (b & th & a & ob & oa & E & Hb & Ha & Rb & Ra & R)
         (b' & th' & a' & ob' & oa' & E' & Hb' & Ha' & Rb' & Ra' & R').
  rewrite E in E'.
  destruct (split_at_key _ _ _ _ _ _ _ Hb Hb' E') as (<- & <- & <-).
  rewrite Rb in Rb'. injection Rb' as <-.
  rewrite Ra in Ra'. injection Ra' as <-.
  rewrite R in R'. injection R' as R'.
  apply app_inv_head in R'. by apply app_inv_tail in R'.
Qed.

Lemma alerts_of_priced (prices : gmap string (gmap string Q)) (c : string)
    (th : thresholds) (sample : gmap string Q) (price : Q) :
  prices !! c = Some sample -> sample !! "usd" = Some price ->
  alerts_of prices (c, th)
    = alerts_for_price th price (get sample "usd_24h_change" 0%Q).
Proof. intros Hs Hp. unfold alerts_of. simpl. by rewrite Hs, Hp. Qed.

Lemma le_true (a b : Q) : Py.le a b = true <-> (a <= b)%Q.
Proof. apply Qle_bool_iff. Qed.

Lemma le_false (a b : Q) : Py.le a b = false <-> ~ (a <= b)%Q.
Proof.
  rewrite <- le_true. destruct (Py.le a b); split; congruence.
Qed.

Lemma ge_true (a b : Q) : Py.ge a b = true <-> (b <= a)%Q.
Proof. apply Qle_bool_iff. Qed.

Lemma ge_false (a b : Q) : Py.ge a b = false <-> ~ (b <= a)%Q.
Proof.
  rewrite <- ge_true. destruct (Py.ge a b); split; congruence.
Qed.

Lemma alerts_for_price_low (th : thresholds) (price change : Q) :
  (price <= low_threshold th)%Q ->
  alerts_for_price th price change
    = [below_alert_msg (symbol th) price (low_threshold th) change].
Proof. intros H%le_true. unfold alerts_for_price. by rewrite H. Qed.

Lemma alerts_for_price_high (th : thresholds) (price change : Q) :
  ~ (price <= low_threshold th)%Q -> (high_threshold th <= price)%Q ->
  alerts_for_price th price change
    = [above_alert_msg (symbol th) price (high_threshold th) change].
Proof.
  intros Hl%le_false Hh%ge_true. unfold alerts_for_price. by rewrite Hl, Hh.
Qed.

(** The alerts for a price depend on the numbers, not on the fractions
    that write them. *)
Lemma alerts_for_price_comp (th : thresholds) (price price' change change' : Q) :
  (price == price')%Q -> (change == change')%Q ->
  alerts_for_price th price change = alerts_for_price th price' change'.
Proof.
  intros Ep Ec. unfold alerts_for_price, Py.le, Py.ge.
  rewrite (Qleb_comp _ _ Ep _ _ (Qeq_refl (low_threshold th))).
  rewrite (Qleb_comp _ _ (Qeq_refl (high_threshold th)) _ _ Ep).
  unfold below_alert_msg, above_alert_msg.
  by rewrite (fmt_comma_2f_comp _ _ Ep), (fmt_2f_comp _ _ Ec).
Qed.

Lemma alerts_for_price_triggered (th : thresholds) (price change : Q) :
  (price <= low_threshold th)%Q \/ (high_threshold th <= price)%Q ->
  exists msg, alerts_for_price th price change = [msg].
Proof.
  intros H. destruct (Py.le price (low_threshold th)) eqn:Hle.
  - apply le_true in Hle. eexists. by apply alerts_for_price_low.
  - apply le_false in Hle. destruct H as [H | H]; [contradiction |].
    eexists. by apply alerts_for_price_high.
Qed.

(** A coin without a sample leaves the loop as it found it. *)
Lemma for_monitors_skip (before after : list (string * thresholds))
    (c : string) (th : thresholds) (prices : gmap string (gmap string Q))
    (acc : list string) :
  prices !! c = None ->
  for_monitors (before ++ (c, th) :: after) prices acc
    = for_monitors (before ++ after) prices acc.
Proof.
  intros Hc. revert acc. induction before as [| [k v] before IH]; intros acc.
  - simpl app. by rewrite for_monitors_cons, Hc.
  - simpl app. rewrite !for_monitors_cons.
    destruct (prices !! k) as [sample|]; [| apply IH].
    destruct (sample !! "usd") as [price|]; [| reflexivity].
    cbv zeta. by rewrite IH.
Qed.

(** ** More on strings: finding a piece of a concatenation *)

Lemma contains_skip (a rest sub : string) :
  Py.contains rest sub = true -> Py.contains (a +:+ rest) sub = true.
Proof.
  intros H. induction a as [|x a IH]; [exact H |].
  rewrite append_cons. simpl. rewrite IH. apply orb_true_r.
Qed.

Lemma contains_refl (s : string) : Py.contains s s = true.
Proof. rewrite <- (append_nil_r s) at 1. apply contains_here. Qed.

Ltac find_piece :=
  repeat first
    [ exact (contains_here _ _)
    | exact (contains_refl _)
    | apply contains_skip ].

(** ** Where an alert comes from *)

Lemma alerts_for_price_inv (th : thresholds) (price change : Q) (msg : string) :
  msg ∈ alerts_for_price th price change ->
  ((price <= low_threshold th)%Q
   /\ msg = below_alert_msg (symbol th) price (low_threshold th) change)
  \/ (~ (price <= low_threshold th)%Q /\ (high_threshold th <= price)%Q
      /\ msg = above_alert_msg (symbol th) price (high_threshold th) change).
Proof.
  unfold alerts_for_price.
  destruct (Py.le price (low_threshold th)) eqn:Hle.
  - intros ->%list_elem_of_singleton. left. by apply le_true in Hle.
  - destruct (Py.ge price (high_threshold th)) eqn:Hge.
    + intros ->%list_elem_of_singleton. right.
      apply le_false in Hle. by apply ge_true in Hge.
    + intros H. by apply elem_of_nil in H.
Qed.


(** ** The evaluator only prints *)

Lemma for_monitors_stdout (items : list (string * thresholds))
    (prices : gmap string (gmap string Q)) (acc : list string) :
  Forall (fun ev => is_stdout ev = true) (events (for_monitors items prices acc)).
Proof.
  revert acc. induction items as [| [c th] rest IH]; intros acc.
  - apply Forall_nil_2.
  - rewrite for_monitors_cons.
    destruct (prices !! c) as [sample|]; [| apply IH].
    destruct (sample !! "usd") as [price|]; [| apply Forall_nil_2].
    cbv zeta. unfold events at 1. simpl. apply Forall_cons. split; [reflexivity | apply IH].
Qed.

(** ** A sample without a 24-hour change *)

Lemma for_monitors_zero_change (items : list (string * thresholds))
    (prices : gmap string (gmap string Q)) (c : string)
    (sample : gmap string Q) (acc : list string) :
  prices !! c = Some sample ->
  sample !! "usd_24h_change" = None ->
  for_monitors items (<[c := <["usd_24h_change" := 0%Q]> sample]> prices) acc
    = for_monitors items prices acc.
Proof.
  intros Hs Hnone. revert acc.
  induction items as [| [k v] rest IH]; intros acc; [reflexivity |].
  rewrite !for_monitors_cons.
  destruct (decide (c = k)) as [<- | Hne].
  - rewrite lookup_insert_eq, Hs.
    rewrite lookup_insert_ne by discriminate.
    destruct (sample !! "usd") as [price|]; [| reflexivity].
    unfold get. rewrite lookup_insert_eq, Hnone. simpl.
    by rewrite IH.
  - rewrite lookup_insert_ne by exact Hne.
    destruct (prices !! k) as [s|]; [| apply IH].
    destruct (s !! "usd") as [price|]; [| reflexivity].
    cbv zeta. by rewrite IH.
Qed.

(** ** The fetcher *)

Lemma raise_for_status_events (r : Response) : events (raise_for_status r) = [].
Proof.
  unfold raise_for_status.
  destruct ((400 <=? status_code r)%Z && (status_code r <? 500)%Z); [reflexivity |].
  destruct ((500 <=? status_code r)%Z && (status_code r <? 600)%Z); reflexivity.
Qed.

(** [raise_for_status] raises exactly on the codes from 400 to 599. *)
Lemma raise_for_status_raises (r : Response) :
  (exists e, result (raise_for_status r) = Raised e)
  <-> (400 <= status_code r < 600)%Z.
Proof.
  unfold raise_for_status.
  destruct ((400 <=? status_code r)%Z && (status_code r <? 500)%Z) eqn:H4.
  - apply andb_true_iff in H4 as [?%Z.leb_le ?%Z.ltb_lt].
    split; [lia | by eexists].
  - destruct ((500 <=? status_code r)%Z && (status_code r <? 600)%Z) eqn:H5.
    + apply andb_true_iff in H5 as [?%Z.leb_le ?%Z.ltb_lt].
      split; [lia | by eexists].
    + split; [intros [e He]; discriminate |].
      intros [Hlo Hhi]. exfalso.
      apply andb_false_iff in H4 as [H4 | H4], H5 as [H5 | H5];
        try apply Z.leb_gt in H4; try apply Z.ltb_ge in H4;
        try apply Z.leb_gt in H5; try apply Z.ltb_ge in H5; lia.
Qed.

Lemma get_crypto_prices_failure (monitors : list (string * thresholds))
    (w : world) (e : exn) :
  fetch_error w = Some e ->
  get_crypto_prices monitors w =
    ([price_request monitors; Stdout ("获取价格失败: " +:+ str_exn e)],
     Returned None).
Proof.
  unfold fetch_error, get_crypto_prices, requests_get, response_json.
  destruct (get_reply w) as [err | r].
  - intros [= <-]. reflexivity.
  - cbv [bind emit ret raise print try_except result].
    pose proof (raise_for_status_events r) as Hev.
    destruct (raise_for_status r) as [t [e' | []]]; simpl in Hev; subst t; simpl.
    + intros [= <-]. reflexivity.
    + destruct (content r) as [err | prices]; [| discriminate].
      intros [= <-]. reflexivity.
Qed.

Lemma get_crypto_prices_success (monitors : list (string * thresholds))
    (w : world) (r : Response) (prices : gmap string (gmap string Q)) :
  get_reply w = Got r ->
  ~ (400 <= status_code r < 600)%Z ->
  content r = PriceMapping prices ->
  get_crypto_prices monitors w = ([price_request monitors], Returned (Some prices)).
Proof.
  intros Hr Hcode Hbody.
  unfold get_crypto_prices, requests_get, response_json. rewrite Hr.
  cbv [bind emit ret raise print try_except]. rewrite Hbody.
  pose proof (raise_for_status_events r) as Hev.
  pose proof (raise_for_status_raises r) as Hraise.
  destruct (raise_for_status r) as [t [e' | []]]; simpl in Hev; subst t.
  - exfalso. apply Hcode, Hraise. by eexists.
  - reflexivity.
Qed.

Example fetch_failures_logged :
  get_crypto_prices MONITORS world_down
    = ([price_request MONITORS; Stdout "获取价格失败: Connection refused"],
       Returned None)
  /\ get_crypto_prices MONITORS world_503
    = ([price_request MONITORS;
        Stdout ("获取价格失败: 503 Server Error: Service Unavailable for url: "
                +:+ COINGECKO_API_URL)],
       Returned None)
  /\ get_crypto_prices MONITORS world_garbled
    = ([price_request MONITORS;
        Stdout "获取价格失败: Expecting value: line 1 column 1 (char 0)"],
       Returned None).
Proof. repeat split; vm_compute; reflexivity. Qed.

Lemma fetch_error_cases (w : world) :
  (exists err, get_reply w = NoResponse err)
  \/ (exists r, get_reply w = Got r
        /\ ((400 <= status_code r < 600)%Z \/ exists err, content r = Malformed err)) ->
  exists e, fetch_error w = Some e.
Proof.
  unfold fetch_error. intros [[err ->] | (r & -> & H)]; [by eexists |].
  destruct (result (raise_for_status r)) as [e | []] eqn:Hres; [by eexists |].
  destruct H as [Hcode | [err ->]]; [| by eexists].
  apply raise_for_status_raises in Hcode as [e He]. congruence.
Qed.

(** ** Numbers that are doubles *)




(** * The claims *)



(** C2. When the price meets both conditions at once
    ([high_threshold <= price <= low_threshold]), the evaluator emits
    exactly one alert for the coin, and it is a "below" alert, not an
    "above" one. *)
Theorem low_takes_precedence
    (monitors : list (string * thresholds))
    (prices : gmap string (gmap string Q))
    (coin_id : string) (th : thresholds) (sample : gmap string Q) (price : Q) :
  NoDup (dict_keys monitors) ->
  priced monitors prices = true ->
  (coin_id, th) ∈ monitors ->
  prices !! coin_id = Some sample ->
  sample !! "usd" = Some price ->
  (price <= low_threshold th)%Q ->
  (high_threshold th <= price)%Q ->
  exists msg,
    emits_for monitors prices coin_id [msg]
    /\ (forall xs, emits_for monitors prices coin_id xs -> xs = [msg])
    /\ msg = below_alert_msg (symbol th) price (low_threshold th)
               (get sample "usd_24h_change" 0%Q)
    /\ direction_of msg = Some below
    /\ direction_of msg <> Some above.
Proof.
  intros Hnd Hp Hin Hs Hprice Hlow Hhigh.
  pose proof (emits_for_alerts_of _ _ _ _ Hnd Hp Hin) as Hemit.
  rewrite (alerts_of_priced _ _ _ _ _ Hs Hprice) in Hemit.
  rewrite (alerts_for_price_low _ _ _ Hlow) in Hemit.
  eexists. split; [exact Hemit |].
  split; [intros xs Hxs; exact (emits_for_unique _ _ _ _ _ Hxs Hemit) |].
  split; [reflexivity |].
  rewrite direction_of_below. split; [reflexivity | discriminate].
Qed.

(** Thresholds 500 (low) and 300 (high), price 400: both conditions hold. *)
Lemma low_takes_precedence_witness :
  exists msg,
    emits_for inverted bnb_400 "binancecoin" [msg]
    /\ (forall xs, emits_for inverted bnb_400 "binancecoin" xs -> xs = [msg])
    /\ msg = below_alert_msg "BNB" 400 500 (get {[ "usd" := 400%Q ]} "usd_24h_change" 0%Q)
    /\ direction_of msg = Some below
    /\ direction_of msg <> Some above.
Proof.
  apply (low_takes_precedence inverted bnb_400 "binancecoin"
    {| symbol := "BNB"; low_threshold := 500%Q; high_threshold := 300%Q |}
    {[ "usd" := 400%Q ]} 400%Q).
  - apply (bool_decide_unpack _). vm_compute. exact I.
  - vm_compute. reflexivity.
  - apply list_elem_of_here.
  - vm_compute. reflexivity.
  - vm_compute. reflexivity.
  - vm_compute. discriminate.
  - vm_compute. discriminate.
Defined.

(** C3, as stated, fails: with thresholds 500 (low) and 300 (high) and a
    price of 600 the evaluator reports an "above" alert. *)
Lemma inverted_thresholds_report_above :
  (high_threshold {| symbol := "BNB"; low_threshold := 500%Q; high_threshold := 300%Q |}
     < low_threshold {| symbol := "BNB"; low_threshold := 500%Q; high_threshold := 300%Q |})%Q
  /\ check_price_thresholds inverted bnb_600
       = ([Stdout "BNB: $600.00 (24h: 0.00%)"],
          Returned [above_alert_msg "BNB" 600 300 0])
  /\ emits_for inverted bnb_600 "binancecoin" [above_alert_msg "BNB" 600 300 0]
  /\ direction_of (above_alert_msg "BNB" 600 300 0) = Some above.
Proof.
  split; [by vm_compute |].
  split; [vm_compute; reflexivity |].
  split; [| reflexivity].
  assert (H : emits_for inverted bnb_600 "binancecoin"
                (alerts_of bnb_600
                   ("binancecoin",
                    {| symbol := "BNB"; low_threshold := 500%Q;
                       high_threshold := 300%Q |}))).
  { apply emits_for_alerts_of.
    - apply (bool_decide_unpack _). vm_compute. exact I.
    - vm_compute. reflexivity.
    - apply list_elem_of_here. }
  exact H.
Qed.

(** C3, amended. When a coin's low threshold is strictly greater than its
    high threshold, the evaluator reports an alert for the coin at every
    price: a "below" alert when [price <= low_threshold] and an "above"
    alert when [price > low_threshold]. *)
Theorem inverted_thresholds_always_alert
    (monitors : list (string * thresholds))
    (prices : gmap string (gmap string Q))
    (coin_id : string) (th : thresholds) (sample : gmap string Q) (price : Q) :
  NoDup (dict_keys monitors) ->
  priced monitors prices = true ->
  (coin_id, th) ∈ monitors ->
  prices !! coin_id = Some sample ->
  sample !! "usd" = Some price ->
  (high_threshold th < low_threshold th)%Q ->
  let change := get sample "usd_24h_change" 0%Q in
  ((price <= low_threshold th)%Q ->
     emits_for monitors prices coin_id
       [below_alert_msg (symbol th) price (low_threshold th) change])
  /\ ((low_threshold th < price)%Q ->
     emits_for monitors prices coin_id
       [above_alert_msg (symbol th) price (high_threshold th) change])
  /\ ~ emits_for monitors prices coin_id [].
Proof.
  intros Hnd Hp Hin Hs Hprice Hinv change.
  pose proof (emits_for_alerts_of _ _ _ _ Hnd Hp Hin) as Hemit.
  rewrite (alerts_of_priced _ _ _ _ _ Hs Hprice) in Hemit. fold change in Hemit.
  assert (Habove : (low_threshold th < price)%Q ->
            alerts_for_price th price change
              = [above_alert_msg (symbol th) price (high_threshold th) change]).
  { intros Hlt. apply alerts_for_price_high.
    - by apply Qlt_not_le.
    - apply Qlt_le_weak. by apply Qlt_trans with (low_threshold th). }
  split; [| split].
  - intros Hlow. by rewrite (alerts_for_price_low _ _ _ Hlow) in Hemit.
  - intros Hlt. by rewrite (Habove Hlt) in Hemit.
  - intros Hnone.
    pose proof (emits_for_unique _ _ _ _ _ Hnone Hemit) as E.
    destruct (Qlt_le_dec (low_threshold th) price) as [Hlt | Hle].
    + rewrite (Habove Hlt) in E. discriminate.
    + rewrite (alerts_for_price_low _ _ _ Hle) in E. discriminate.
Qed.

Lemma inverted_thresholds_always_alert_witness :
  emits_for inverted bnb_600 "binancecoin"
    [above_alert_msg "BNB" 600 300 (get {[ "usd" := 600%Q ]} "usd_24h_change" 0%Q)].
Proof.
  pose proof (inverted_thresholds_always_alert inverted bnb_600 "binancecoin"
    {| symbol := "BNB"; low_threshold := 500%Q; high_threshold := 300%Q |}
    {[ "usd" := 600%Q ]} 600%Q) as H.
  destruct H as (_ & H & _).
  - apply (bool_decide_unpack _). vm_compute. exact I.
  - vm_compute. reflexivity.
  - apply list_elem_of_here.
  - vm_compute. reflexivity.
  - vm_compute. reflexivity.
  - vm_compute. reflexivity.
  - apply H. vm_compute. reflexivity.
Defined.

(** C4. A coin that is configured but has no entry in the price mapping
    is silently skipped, whatever its thresholds: the evaluator behaves
    (prints and returns) exactly as if the coin were not configured, and
    emits nothing for it. *)
Theorem unfetched_coin_skipped
    (before after : list (string * thresholds))
    (coin_id : string) (th : thresholds)
    (prices : gmap string (gmap string Q)) :
  prices !! coin_id = None ->
  check_price_thresholds (before ++ (coin_id, th) :: after) prices
    = check_price_thresholds (before ++ after) prices
  /\ (NoDup (dict_keys (before ++ (coin_id, th) :: after)) ->
      priced (before ++ (coin_id, th) :: after) prices = true ->
      emits_for (before ++ (coin_id, th) :: after) prices coin_id []).
Proof.
  intros Hnone. split.
  - unfold check_price_thresholds. by apply for_monitors_skip.
  - intros Hnd Hp.
    assert (Hin : (coin_id, th) ∈ before ++ (coin_id, th) :: after).
    { apply elem_of_app. right. apply list_elem_of_here. }
    pose proof (emits_for_alerts_of _ _ _ _ Hnd Hp Hin) as Hemit.
    unfold alerts_of in Hemit. simpl in Hemit. by rewrite Hnone in Hemit.
Qed.

(** Only binance coin was fetched; bitcoin is configured (40000 / 70000)
    and skipped. *)
Lemma unfetched_coin_skipped_witness :
  check_price_thresholds MONITORS bnb_at_high
    = check_price_thresholds
        [ ("ethereum", {| symbol := "ETH"; low_threshold := 2500%Q;
                           high_threshold := 4000%Q |});
          ("binancecoin", {| symbol := "BNB"; low_threshold := 300%Q;
                              high_threshold := 500%Q |}) ]
        bnb_at_high
  /\ emits_for MONITORS bnb_at_high "bitcoin" [].
Proof.
  pose proof (unfetched_coin_skipped []
    [ ("ethereum", {| symbol := "ETH"; low_threshold := 2500%Q;
                       high_threshold := 4000%Q |});
      ("binancecoin", {| symbol := "BNB"; low_threshold := 300%Q;
                          high_threshold := 500%Q |}) ]
    "bitcoin"
    {| symbol := "BTC"; low_threshold := 40000%Q; high_threshold := 70000%Q |}
    bnb_at_high) as H.
  destruct H as [Hsame Hnone].
  - vm_compute. reflexivity.
  - split; [exact Hsame |]. apply Hnone.
    + apply (bool_decide_unpack _). vm_compute. exact I.
    + vm_compute. reflexivity.
Defined.

(** C5. Alerts come out in the order of the configuration: the returned
    list is the alerts of each configured coin, one coin after the other
    in configuration order; so when coin [a] is configured before coin
    [b] and both trigger, the alert of [a] precedes the alert of [b], with
    the alerts of the coins configured before, between and after them in
    their places. *)
Theorem alerts_in_configuration_order
    (l1 l2 l3 : list (string * thresholds))
    (a b : string) (tha thb : thresholds)
    (prices : gmap string (gmap string Q))
    (sa sb : gmap string Q) (pa pb : Q) :
  let monitors := l1 ++ (a, tha) :: l2 ++ (b, thb) :: l3 in
  NoDup (dict_keys monitors) ->
  priced monitors prices = true ->
  prices !! a = Some sa -> sa !! "usd" = Some pa ->
  prices !! b = Some sb -> sb !! "usd" = Some pb ->
  (pa <= low_threshold tha)%Q \/ (high_threshold tha <= pa)%Q ->
  (pb <= low_threshold thb)%Q \/ (high_threshold thb <= pb)%Q ->
  result (check_price_thresholds monitors prices)
    = Returned (flat_map (alerts_of prices) monitors)
  /\ exists ma mb o1 o2 o3,
    emits_for monitors prices a [ma]
    /\ emits_for monitors prices b [mb]
    /\ result (check_price_thresholds l1 prices) = Returned o1
    /\ result (check_price_thresholds l2 prices) = Returned o2
    /\ result (check_price_thresholds l3 prices) = Returned o3
    /\ result (check_price_thresholds monitors prices)
       = Returned (o1 ++ ma :: o2 ++ mb :: o3).
Proof.
  intros monitors Hnd Hp Hsa Hpa Hsb Hpb Ha Hb.
  split; [by rewrite check_priced |].
  assert (Hina : (a, tha) ∈ monitors).
  { apply elem_of_app. right. apply list_elem_of_here. }
  assert (Hinb : (b, thb) ∈ monitors).
  { apply elem_of_app. right. apply list_elem_of_further.
    apply elem_of_app. right. apply list_elem_of_here. }
  pose proof (emits_for_alerts_of _ _ _ _ Hnd Hp Hina) as Hea.
  pose proof (emits_for_alerts_of _ _ _ _ Hnd Hp Hinb) as Heb.
  pose proof (alerts_of_priced _ _ tha _ _ Hsa Hpa) as Ea.
  pose proof (alerts_of_priced _ _ thb _ _ Hsb Hpb) as Eb.
  destruct (alerts_for_price_triggered tha pa (get sa "usd_24h_change" 0%Q) Ha)
    as [ma Hma].
  destruct (alerts_for_price_triggered thb pb (get sb "usd_24h_change" 0%Q) Hb)
    as [mb Hmb].
  rewrite Hma in Ea. rewrite Hmb in Eb. rewrite Ea in Hea. rewrite Eb in Heb.
  pose proof Hp as Hp'. unfold monitors in Hp'.
  rewrite priced_app in Hp'. apply andb_true_iff in Hp' as [Hp1 Hp'].
  change ((a, tha) :: l2 ++ (b, thb) :: l3)
    with ([(a, tha)] ++ l2 ++ [(b, thb)] ++ l3) in Hp'.
  rewrite !priced_app in Hp'.
  apply andb_true_iff in Hp' as [_ Hp'].
  apply andb_true_iff in Hp' as [Hp2 Hp'].
  apply andb_true_iff in Hp' as [_ Hp3].
  exists ma, mb, (flat_map (alerts_of prices) l1),
    (flat_map (alerts_of prices) l2), (flat_map (alerts_of prices) l3).
  split; [exact Hea |]. split; [exact Heb |].
  rewrite !check_priced by assumption.
  repeat split. unfold monitors. simpl.
  rewrite flat_map_app. simpl. rewrite flat_map_app. simpl.
  by rewrite Ea, Eb.
Qed.

(** Bitcoin (first in [MONITORS]) is under its low threshold and binance
    coin (last) is at its high one: bitcoin's alert comes first. *)
Lemma alerts_in_configuration_order_witness :
  result (check_price_thresholds MONITORS btc_low_bnb_high)
    = Returned (flat_map (alerts_of btc_low_bnb_high) MONITORS)
  /\ exists ma mb o1 o2 o3,
    emits_for MONITORS btc_low_bnb_high "bitcoin" [ma]
    /\ emits_for MONITORS btc_low_bnb_high "binancecoin" [mb]
    /\ result (check_price_thresholds [] btc_low_bnb_high) = Returned o1
    /\ result (check_price_thresholds
                 [ ("ethereum", {| symbol := "ETH"; low_threshold := 2500%Q;
                                    high_threshold := 4000%Q |}) ]
                 btc_low_bnb_high) = Returned o2
    /\ result (check_price_thresholds [] btc_low_bnb_high) = Returned o3
    /\ result (check_price_thresholds MONITORS btc_low_bnb_high)
       = Returned (o1 ++ ma :: o2 ++ mb :: o3).
Proof.
  apply (alerts_in_configuration_order []
    [ ("ethereum", {| symbol := "ETH"; low_threshold := 2500%Q;
                       high_threshold := 4000%Q |}) ]
    []
    "bitcoin" "binancecoin"
    {| symbol := "BTC"; low_threshold := 40000%Q; high_threshold := 70000%Q |}
    {| symbol := "BNB"; low_threshold := 300%Q; high_threshold := 500%Q |}
    btc_low_bnb_high {[ "usd" := 39000%Q ]} {[ "usd" := 500%Q ]} 39000%Q 500%Q).
  - apply (bool_decide_unpack _). vm_compute. exact I.
  - vm_compute. reflexivity.
  - vm_compute. reflexivity.
  - vm_compute. reflexivity.
  - vm_compute. reflexivity.
  - vm_compute. reflexivity.
  - left. vm_compute. discriminate.
  - right. vm_compute. discriminate.
Defined.

(** C6, as stated, fails: the evaluator has a side effect.  For a bitcoin
    price between the thresholds it emits no alert, yet prints a line on
    standard output. *)
Lemma evaluator_prints :
  check_price_thresholds MONITORS btc_calm
    = ([Stdout "BTC: $55,000.00 (24h: 0.00%)"], Returned [])
  /\ events (check_price_thresholds MONITORS btc_calm) <> [].
Proof. split; [vm_compute; reflexivity | vm_compute; discriminate]. Qed.

(** C6, amended. The evaluator is deterministic: two calls whose price
    mappings hold the same samples (and whose configurations are the
    same) print the same lines and return the same alerts.  Its only side
    effect is printing: it makes no HTTP request, and when every listed
    sample is priced it prints exactly one price line for each configured
    coin that has a sample, in configuration order. *)
Theorem evaluator_deterministic_and_only_prints
    (monitors : list (string * thresholds))
    (prices prices' : gmap string (gmap string Q)) :
  (forall coin_id, prices !! coin_id = prices' !! coin_id) ->
  check_price_thresholds monitors prices = check_price_thresholds monitors prices'
  /\ Forall (fun ev => is_stdout ev = true)
       (events (check_price_thresholds monitors prices))
  /\ (priced monitors prices = true ->
      events (check_price_thresholds monitors prices)
        = flat_map (lines_of prices) monitors).
Proof.
  intros Hsame. apply map_eq in Hsame as <-.
  split; [reflexivity |].
  split; [apply for_monitors_stdout |].
  intros Hp. by rewrite check_priced.
Qed.

Lemma evaluator_deterministic_and_only_prints_witness :
  check_price_thresholds MONITORS btc_calm = check_price_thresholds MONITORS btc_calm
  /\ Forall (fun ev => is_stdout ev = true)
       (events (check_price_thresholds MONITORS btc_calm))
  /\ events (check_price_thresholds MONITORS btc_calm)
     = flat_map (lines_of btc_calm) MONITORS.
Proof.
  pose proof (evaluator_deterministic_and_only_prints MONITORS btc_calm btc_calm)
    as H.
  destruct H as (Hsame & Hout & Hlines).
  - intros coin_id. reflexivity.
  - split; [exact Hsame |]. split; [exact Hout |].
    apply Hlines. vm_compute. reflexivity.
Defined.




(** C8, as stated, fails for a response outside 2xx that
    [raise_for_status] lets through: a 300 reply carrying a price mapping
    is not a failure for the fetcher, which returns the mapping, and
    [main] goes on to call the evaluator and post the alert. *)
Lemma unrejected_status_is_evaluated :
  (exists r, get_reply world_300 = Got r
             /\ status_code r = 300%Z /\ ~ (200 <= status_code r < 300)%Z)
  /\ get_crypto_prices MONITORS world_300
       = ([price_request MONITORS], Returned (Some bnb_at_high))
  /\ result (main_with tripwire MONITORS world_300)
       = Raised (KeyError "evaluator called")
  /\ existsb is_post (events (main world_300)) = true.
Proof.
  split.
  { eexists. split; [reflexivity |]. split; [reflexivity |]. simpl. lia. }
  split; [vm_compute; reflexivity |].
  split; vm_compute; reflexivity.
Qed.

(** C8, amended. On a fetch failure (the request raises, the response has
    a 4xx or 5xx status, or the body does not decode) the exception is
    caught and logged, the fetcher returns the failure signal, and
    [main], whatever the evaluator, prints that no price data is
    available and returns normally: the evaluator is not called and
    nothing is posted. *)
Theorem fetch_failure_handled
    (evaluator : gmap string (gmap string Q) -> M (list string))
    (monitors : list (string * thresholds)) (w : world) :
  (exists err, get_reply w = NoResponse err)
  \/ (exists r, get_reply w = Got r
        /\ ((400 <= status_code r < 600)%Z \/ exists err, content r = Malformed err)) ->
  exists e,
    get_crypto_prices monitors w
      = ([price_request monitors; Stdout ("获取价格失败: " +:+ str_exn e)],
         Returned None)
    /\ main_with evaluator monitors w
       = (banner w ++ [ price_request monitors;
                        Stdout ("获取价格失败: " +:+ str_exn e);
                        Stdout "无法获取价格数据" ],
          Returned tt).
Proof.
  intros Hfail. apply fetch_error_cases in Hfail as [e He].
  exists e. pose proof (get_crypto_prices_failure monitors w e He) as Hget.
  split; [exact Hget |].
  unfold main_with. rewrite Hget. reflexivity.
Qed.

(** A 503 from the price endpoint. *)
Lemma fetch_failure_handled_witness :
  exists e,
    get_crypto_prices MONITORS world_503
      = ([price_request MONITORS; Stdout ("获取价格失败: " +:+ str_exn e)],
         Returned None)
    /\ main_with tripwire MONITORS world_503
       = (banner world_503 ++ [ price_request MONITORS;
                                Stdout ("获取价格失败: " +:+ str_exn e);
                                Stdout "无法获取价格数据" ],
          Returned tt).
Proof.
  apply (fetch_failure_handled tripwire MONITORS world_503).
  right. eexists. split; [reflexivity |]. left. simpl. lia.
Defined.

(** C9. A sample without the 24-hour-change field does not make the
    evaluator fail: the evaluator returns, behaves exactly as if the field
    were present with value 0, and any alert it emits for that coin shows
    a change of 0.00%. *)
Theorem missing_change_defaults_to_zero
    (monitors : list (string * thresholds))
    (prices : gmap string (gmap string Q))
    (coin_id : string) (th : thresholds) (sample : gmap string Q) (price : Q) :
  NoDup (dict_keys monitors) ->
  priced monitors prices = true ->
  (coin_id, th) ∈ monitors ->
  prices !! coin_id = Some sample ->
  sample !! "usd" = Some price ->
  sample !! "usd_24h_change" = None ->
  (exists alerts, result (check_price_thresholds monitors prices) = Returned alerts)
  /\ check_price_thresholds monitors
       (<[coin_id := <["usd_24h_change" := 0%Q]> sample]> prices)
     = check_price_thresholds monitors prices
  /\ emits_for monitors prices coin_id (alerts_for_price th price 0)
  /\ (forall msg, emits_for monitors prices coin_id [msg] ->
        Py.contains msg "24小时变化: 0.00%" = true).
Proof.
  intros Hnd Hp Hin Hs Hprice Hnone.
  pose proof (emits_for_alerts_of _ _ _ _ Hnd Hp Hin) as Hemit.
  rewrite (alerts_of_priced _ _ _ _ _ Hs Hprice) in Hemit.
  unfold get in Hemit. rewrite Hnone in Hemit. simpl in Hemit.
  split; [rewrite check_priced by assumption; by eexists |].
  split; [by apply for_monitors_zero_change |].
  split; [exact Hemit |].
  intros msg Hmsg.
  pose proof (emits_for_unique _ _ _ _ _ Hmsg Hemit) as E.
  assert (Hin' : msg ∈ alerts_for_price th price 0).
  { rewrite <- E. apply list_elem_of_here. }
  apply alerts_for_price_inv in Hin' as [[_ ->] | (_ & _ & ->)].
  - unfold below_alert_msg.
    change (Py.fmt_2f 0) with "0.00".
    change ("24小时变化: " +:+ "0.00" +:+ "%") with "24小时变化: 0.00%".
    find_piece.
  - unfold above_alert_msg.
    change (Py.fmt_2f 0) with "0.00".
    change ("24小时变化: " +:+ "0.00" +:+ "%") with "24小时变化: 0.00%".
    find_piece.
Qed.

(** Binance coin at 500.00 without a change field: the "above" alert
    reports 0.00%. *)
Lemma missing_change_defaults_to_zero_witness :
  emits_for MONITORS bnb_at_high "binancecoin"
    (alerts_for_price
       {| symbol := "BNB"; low_threshold := 300%Q; high_threshold := 500%Q |}
       500 0)
  /\ Py.contains (above_alert_msg "BNB" 500 500 0) "24小时变化: 0.00%" = true.
Proof.
  pose proof (missing_change_defaults_to_zero MONITORS bnb_at_high "binancecoin"
    {| symbol := "BNB"; low_threshold := 300%Q; high_threshold := 500%Q |}
    {[ "usd" := 500%Q ]} 500%Q) as H.
  destruct H as (_ & _ & Hemit & Hcontains).
  - apply (bool_decide_unpack _). vm_compute. exact I.
  - vm_compute. reflexivity.
  - do 2 apply list_elem_of_further. apply list_elem_of_here.
  - vm_compute. reflexivity.
  - vm_compute. reflexivity.
  - vm_compute. reflexivity.
  - split; [exact Hemit |]. apply Hcontains. exact Hemit.
Defined.

(** C10. When the fetch succeeds with an empty price mapping, [main]
    does what it does on a fetch failure: it prints that no price data is
    available and returns normally, whatever the evaluator; the evaluator
    is not called and nothing is posted. *)
Theorem empty_mapping_treated_as_failure
    (evaluator : gmap string (gmap string Q) -> M (list string))
    (monitors : list (string * thresholds)) (w : world) (r : Response) :
  get_reply w = Got r ->
  ~ (400 <= status_code r < 600)%Z ->
  content r = PriceMapping ∅ ->
  get_crypto_prices monitors w = ([price_request monitors], Returned (Some ∅))
  /\ main_with evaluator monitors w
     = (banner w ++ events (get_crypto_prices monitors w)
          ++ [Stdout "无法获取价格数据"],
        Returned tt)
  /\ (forall w' : world,
        fetch_error w' <> None ->
        main_with evaluator monitors w'
        = (banner w' ++ events (get_crypto_prices monitors w')
             ++ [Stdout "无法获取价格数据"],
           Returned tt))
  /\ existsb is_post (events (main_with evaluator monitors w)) = false.
Proof.
  intros Hr Hcode Hbody.
  pose proof (get_crypto_prices_success monitors w r ∅ Hr Hcode Hbody) as Hget.
  split; [exact Hget |].
  assert (Hmain : main_with evaluator monitors w
     = (banner w ++ events (get_crypto_prices monitors w)
          ++ [Stdout "无法获取价格数据"], Returned tt)).
  { unfold main_with. rewrite Hget. reflexivity. }
  split; [exact Hmain |].
  split.
  - intros w' Hw'. destruct (fetch_error w') as [e |] eqn:He; [| congruence].
    unfold main_with. rewrite (get_crypto_prices_failure monitors w' e He).
    reflexivity.
  - rewrite Hmain, Hget. reflexivity.
Qed.

Lemma empty_mapping_treated_as_failure_witness :
  main_with tripwire MONITORS world_empty
  = (banner world_empty ++ [price_request MONITORS; Stdout "无法获取价格数据"],
     Returned tt)
  /\ main_with tripwire MONITORS world_503
     = (banner world_503 ++ events (get_crypto_prices MONITORS world_503)
          ++ [Stdout "无法获取价格数据"],
        Returned tt).
Proof.
  pose proof (empty_mapping_treated_as_failure tripwire MONITORS world_empty
    {| status_code := 200; reason := "OK"; url := COINGECKO_API_URL;
       content := PriceMapping ∅ |}) as H.
  destruct H as (Hget & Hmain & Hfail & _).
  - reflexivity.
  - simpl. lia.
  - reflexivity.
  - split; [rewrite Hmain, Hget; reflexivity |].
    apply Hfail. vm_compute. discriminate.
Defined.

(** * Further properties of the monitor *)

(** ** The evaluator: what it reads, when it raises, how much it returns *)

Lemma for_monitors_same_readings (items : list (string * thresholds))
    (prices prices' : gmap string (gmap string Q)) (acc : list string) :
  same_readings items prices prices' ->
  for_monitors items prices acc = for_monitors items prices' acc.
Proof.
  revert acc. induction items as [| [c th] rest IH]; intros acc Hsame;
    [reflexivity |].
  assert (Hrest : same_readings rest prices prices').
  { intros k Hk. apply Hsame. simpl. by apply list_elem_of_further. }
  rewrite !for_monitors_cons.
  pose proof (Hsame c ltac:(simpl; apply list_elem_of_here)) as Hc.
  destruct (prices !! c) as [s |], (prices' !! c) as [s' |]; try done.
  - destruct Hc as [Husd Hchange]. unfold get. rewrite <- Husd, <- Hchange.
    destruct (s !! "usd") as [price |]; [| reflexivity].
    cbv zeta. by rewrite (IH _ Hrest).
  - by apply IH.
Qed.

Lemma unpriced_split (items : list (string * thresholds))
    (prices : gmap string (gmap string Q)) :
  priced items prices = false ->
  exists before c th after sample,
    items = before ++ (c, th) :: after
    /\ priced before prices = true
    /\ prices !! c = Some sample
    /\ sample !! "usd" = None.
Proof.
  induction items as [| [c th] rest IH]; [discriminate |].
  unfold priced. cbn [forallb fst]. fold (priced rest prices).
  destruct (prices !! c) as [sample |] eqn:Hs.
  - destruct (sample !! "usd") as [price |] eqn:Hp.
    + rewrite bool_decide_eq_true_2 by eauto. cbn [andb]. intros Hrest.
      destruct (IH Hrest) as (b & c' & th' & a & s' & -> & Hb & Hc' & Hs').
      exists ((c, th) :: b), c', th', a, s'. split; [reflexivity |].
      split; [| done]. unfold priced. cbn [forallb fst]. rewrite Hs.
      rewrite bool_decide_eq_true_2 by (rewrite Hp; eauto). exact Hb.
    + intros _. exists [], c, th, rest, sample. done.
  - cbn [andb]. intros Hrest.
    destruct (IH Hrest) as (b & c' & th' & a & s' & -> & Hb & Hc' & Hs').
    exists ((c, th) :: b), c', th', a, s'. split; [reflexivity |].
    split; [| done]. unfold priced. cbn [forallb fst]. rewrite Hs. exact Hb.
Qed.

Lemma for_monitors_unpriced (before after : list (string * thresholds))
    (c : string) (th : thresholds) (prices : gmap string (gmap string Q))
    (sample : gmap string Q) (acc : list string) :
  priced before prices = true ->
  prices !! c = Some sample ->
  sample !! "usd" = None ->
  for_monitors (before ++ (c, th) :: after) prices acc
    = (flat_map (lines_of prices) before, Raised (KeyError "usd")).
Proof.
  intros Hb Hs Hnone. revert acc.
  induction before as [| [k v] before IH]; intros acc.
  - simpl app. rewrite for_monitors_cons, Hs, Hnone. reflexivity.
  - apply priced_cons in Hb as [Hrest Hk]. specialize (IH Hrest).
    simpl app. rewrite for_monitors_cons. cbn [flat_map].
    unfold lines_of at 1. cbn [fst snd].
    destruct (prices !! k) as [s |]; [| apply IH].
    destruct (Hk s eq_refl) as [price Hprice]. rewrite Hprice. cbv zeta.
    rewrite IH. reflexivity.
Qed.

Lemma returned_priced (monitors : list (string * thresholds))
    (prices : gmap string (gmap string Q)) (alerts : list string) :
  result (check_price_thresholds monitors prices) = Returned alerts ->
  priced monitors prices = true.
Proof.
  intros Hres. destruct (priced monitors prices) eqn:Hp; [reflexivity |].
  destruct (unpriced_split _ _ Hp) as (b & c & th & a & s & -> & Hb & Hs & Hn).
  unfold check_price_thresholds in Hres.
  rewrite (for_monitors_unpriced _ _ _ _ _ _ _ Hb Hs Hn) in Hres. discriminate.
Qed.

Lemma alerts_for_price_length (th : thresholds) (price change : Q) :
  (length (alerts_for_price th price change) <= 1)%nat.
Proof.
  unfold alerts_for_price.
  destruct (Py.le _ _); [simpl; lia |]. destruct (Py.ge _ _); simpl; lia.
Qed.

(** X1. The evaluator reads nothing but the price and the 24-hour change
    of the configured coins: two price mappings that agree on those give
    the same printed lines and the same result, whatever other coins and
    other fields they hold. *)
Theorem evaluator_reads_only_configured_readings
    (monitors : list (string * thresholds))
    (prices prices' : gmap string (gmap string Q)) :
  same_readings monitors prices prices' ->
  check_price_thresholds monitors prices = check_price_thresholds monitors prices'.
Proof. intros Hsame. by apply for_monitors_same_readings. Qed.

(** A reply with volume and timestamp fields and an unconfigured coin. *)
Lemma evaluator_reads_only_configured_readings_witness :
  check_price_thresholds MONITORS bnb_at_high_verbose
  = check_price_thresholds MONITORS bnb_at_high.
Proof.
  apply (evaluator_reads_only_configured_readings MONITORS
           bnb_at_high_verbose bnb_at_high).
  intros coin_id Hin. unfold MONITORS in Hin. simpl in Hin.
  apply elem_of_cons in Hin as [-> | Hin]; [vm_compute; exact I |].
  apply elem_of_cons in Hin as [-> | Hin]; [vm_compute; exact I |].
  apply elem_of_cons in Hin as [-> | Hin]; [vm_compute; split; reflexivity |].
  by apply elem_of_nil in Hin.
Defined.

(** X2. A sample without a price aborts the evaluation: when some
    configured coin has a sample that lacks the 'usd' key, the evaluator
    raises [KeyError('usd')] at the first such coin.  No alert is
    returned (those collected before are lost), the coins configured
    after it are not examined, and what has been printed is the lines of
    the coins configured before it. *)
Theorem unpriced_sample_aborts_evaluation
    (monitors : list (string * thresholds))
    (prices : gmap string (gmap string Q)) :
  priced monitors prices = false ->
  exists before c th after sample,
    monitors = before ++ (c, th) :: after
    /\ priced before prices = true
    /\ prices !! c = Some sample
    /\ sample !! "usd" = None
    /\ check_price_thresholds monitors prices
       = (flat_map (lines_of prices) before, Raised (KeyError "usd")).
Proof.
  intros Hp.
  destruct (unpriced_split _ _ Hp) as (b & c & th & a & s & -> & Hb & Hs & Hn).
  exists b, c, th, a, s. split; [reflexivity |].
  split; [exact Hb |]. split; [exact Hs |]. split; [exact Hn |].
  unfold check_price_thresholds.
  exact (for_monitors_unpriced b a c th prices s [] Hb Hs Hn).
Qed.

(** Bitcoin is evaluated and its line printed; binance coin, the third
    entry, has no price. *)
Lemma unpriced_sample_aborts_evaluation_witness :
  exists before c th after sample,
    MONITORS = before ++ (c, th) :: after
    /\ priced before btc_then_unpriced_bnb = true
    /\ btc_then_unpriced_bnb !! c = Some sample
    /\ sample !! "usd" = None
    /\ check_price_thresholds MONITORS btc_then_unpriced_bnb
       = (flat_map (lines_of btc_then_unpriced_bnb) before,
          Raised (KeyError "usd")).
Proof.
  apply (unpriced_sample_aborts_evaluation MONITORS btc_then_unpriced_bnb).
  vm_compute. reflexivity.
Defined.

(** X3. When the evaluator returns, its output is made up coin by coin,
    in configuration order: a configured coin without a sample
    contributes no line and no alert; a configured coin with a sample
    contributes exactly one printed line, its price line, and at most one
    alert. *)
Theorem one_line_and_at_most_one_alert_per_coin
    (monitors : list (string * thresholds))
    (prices : gmap string (gmap string Q)) (alerts : list string) :
  result (check_price_thresholds monitors prices) = Returned alerts ->
  alerts = flat_map (alerts_of prices) monitors
  /\ events (check_price_thresholds monitors prices)
     = flat_map (lines_of prices) monitors
  /\ forall c th,
       (c, th) ∈ monitors ->
       match prices !! c with
       | None => alerts_of prices (c, th) = [] /\ lines_of prices (c, th) = []
       | Some sample =>
           (length (alerts_of prices (c, th)) <= 1)%nat
           /\ exists price,
                sample !! "usd" = Some price
                /\ lines_of prices (c, th)
                   = [Stdout (price_log_line (symbol th) price
                                (get sample "usd_24h_change" 0%Q))]
       end.
Proof.
  intros Hres. pose proof (returned_priced _ _ _ Hres) as Hp.
  rewrite (check_priced _ _ Hp) in *. injection Hres as <-.
  split; [reflexivity |]. split; [reflexivity |].
  intros c th Hin. unfold alerts_of, lines_of. cbn [fst snd].
  destruct (prices !! c) as [sample |] eqn:Hs; [| done].
  assert (Hprice : exists price, sample !! "usd" = Some price).
  { unfold priced in Hp. rewrite forallb_forall in Hp.
    apply list_elem_of_In in Hin. specialize (Hp _ Hin). cbn [fst] in Hp.
    rewrite Hs in Hp. apply bool_decide_eq_true in Hp as [price Hprice].
    by exists price. }
  destruct Hprice as [price Hprice]. rewrite Hprice.
  split; [apply alerts_for_price_length |]. by exists price.
Qed.

Lemma one_line_and_at_most_one_alert_per_coin_witness :
  events (check_price_thresholds MONITORS btc_low_bnb_high)
  = flat_map (lines_of btc_low_bnb_high) MONITORS
  /\ alerts_of btc_low_bnb_high
       ("ethereum", {| symbol := "ETH"; low_threshold := 2500%Q;
                        high_threshold := 4000%Q |}) = []
  /\ (length (alerts_of btc_low_bnb_high
                ("bitcoin", {| symbol := "BTC"; low_threshold := 40000%Q;
                               high_threshold := 70000%Q |})) <= 1)%nat.
Proof.
  destruct (one_line_and_at_most_one_alert_per_coin MONITORS btc_low_bnb_high
    [below_alert_msg "BTC" 39000 40000 0; above_alert_msg "BNB" 500 500 0])
    as (_ & Hlines & Hcoin).
  - vm_compute. reflexivity.
  - split; [exact Hlines |]. split.
    + pose proof (Hcoin "ethereum"
        {| symbol := "ETH"; low_threshold := 2500%Q; high_threshold := 4000%Q |})
        as He.
      apply He. apply list_elem_of_further, list_elem_of_here.
    + pose proof (Hcoin "bitcoin"
        {| symbol := "BTC"; low_threshold := 40000%Q; high_threshold := 70000%Q |}
        (list_elem_of_here _ _)) as Hb.
      apply Hb.
Defined.

(** ** The notifier *)

Lemma webhook_set (w : world) (url : string) :
  DISCORD_WEBHOOK_URL w = Some url -> url <> "" -> webhook_unset w = false.
Proof.
  intros Hurl Hne. unfold webhook_unset. rewrite Hurl.
  destruct url; [done | reflexivity].
Qed.

Lemma accepted_passes (w : world) (n : nat) :
  accepted w n = true ->
  exists r, post_reply w n = Got r /\ raise_for_status r = ([], Returned tt).
Proof.
  unfold accepted. destruct (post_reply w n) as [err | r]; [discriminate |].
  intros Hcode. exists r. split; [reflexivity |].
  apply negb_true_iff, andb_false_iff in Hcode.
  unfold raise_for_status.
  destruct ((400 <=? status_code r)%Z && (status_code r <? 500)%Z) eqn:H4.
  { apply andb_true_iff in H4 as [?%Z.leb_le ?%Z.ltb_lt].
    destruct Hcode as [?%Z.leb_gt | ?%Z.ltb_ge]; lia. }
  destruct ((500 <=? status_code r)%Z && (status_code r <? 600)%Z) eqn:H5;
    [| reflexivity].
  apply andb_true_iff in H5 as [?%Z.leb_le ?%Z.ltb_lt].
  destruct Hcode as [?%Z.leb_gt | ?%Z.ltb_ge]; lia.
Qed.

Lemma refused_raises (w : world) (n : nat) :
  accepted w n = false ->
  (exists err, post_reply w n = NoResponse err
               /\ delivery_error w n = Some (ConnectionError err))
  \/ (exists r e, post_reply w n = Got r
                  /\ raise_for_status r = ([], Raised e)
                  /\ delivery_error w n = Some e).
Proof.
  unfold accepted, delivery_error.
  destruct (post_reply w n) as [err | r]; [intros _; left; by eexists |].
  intros Hcode. right. apply negb_false_iff in Hcode.
  pose proof (raise_for_status_events r) as Hev.
  destruct (raise_for_status r) as [t [e | []]] eqn:Hr; simpl in Hev; subst t.
  - exists r, e. done.
  - exfalso.
    assert (Hraise : exists e, result (raise_for_status r) = Raised e).
    { apply raise_for_status_raises.
      apply andb_true_iff in Hcode as [?%Z.leb_le ?%Z.ltb_lt]. lia. }
    destruct Hraise as [e He]. rewrite Hr in He. discriminate.
Qed.

Lemma send_accepted (w : world) (n : nat) (message url : string) :
  DISCORD_WEBHOOK_URL w = Some url -> url <> "" -> accepted w n = true ->
  send_discord_alert w n message
  = ([delivery url message; Stdout ("提醒已发送: " +:+ message)], Returned tt).
Proof.
  intros Hurl Hne Hacc. unfold send_discord_alert, requests_post.
  rewrite (webhook_set _ _ Hurl Hne), Hurl.
  destruct (accepted_passes _ _ Hacc) as (r & -> & Hpass).
  cbv [bind emit ret raise print try_except default id]. rewrite Hpass.
  reflexivity.
Qed.

Lemma send_refused (w : world) (n : nat) (message url : string) :
  DISCORD_WEBHOOK_URL w = Some url -> url <> "" -> accepted w n = false ->
  exists e,
    delivery_error w n = Some e
    /\ send_discord_alert w n message
       = ([delivery url message; Stdout ("发送Discord提醒失败: " +:+ str_exn e)],
          Returned tt).
Proof.
  intros Hurl Hne Hacc. unfold send_discord_alert, requests_post.
  rewrite (webhook_set _ _ Hurl Hne), Hurl.
  destruct (refused_raises _ _ Hacc)
    as [(err & -> & Herr) | (r & e & -> & Hraise & Herr)].
  - exists (ConnectionError err). split; [exact Herr | reflexivity].
  - exists e. split; [exact Herr |].
    cbv [bind emit ret raise print try_except default id]. rewrite Hraise.
    reflexivity.
Qed.

Lemma send_unset (w : world) (n : nat) (message : string) :
  webhook_unset w = true ->
  send_discord_alert w n message
  = ([Stdout "未设置Discord Webhook URL"], Returned tt).
Proof. intros H. unfold send_discord_alert. by rewrite H. Qed.

(** Whatever the world, a delivery returns, with at most one POST. *)
Lemma send_shape (w : world) (n : nat) (message : string) :
  exists line,
    (webhook_unset w = true
     /\ send_discord_alert w n message = ([Stdout line], Returned tt))
    \/ (exists url, DISCORD_WEBHOOK_URL w = Some url /\ url <> ""
        /\ send_discord_alert w n message
           = ([delivery url message; Stdout line], Returned tt)).
Proof.
  destruct (webhook_unset w) eqn:Hw.
  - eexists. left. split; [reflexivity | by apply send_unset].
  - assert (Hurl : exists url, DISCORD_WEBHOOK_URL w = Some url /\ url <> "").
    { unfold webhook_unset in Hw. destruct (DISCORD_WEBHOOK_URL w) as [[| c u] |];
        try discriminate. by eexists. }
    destruct Hurl as (url & Hurl & Hne).
    destruct (accepted w n) eqn:Hacc.
    + eexists. right. exists url. split; [exact Hurl |]. split; [exact Hne |].
      by apply send_accepted.
    + destruct (send_refused w n message url Hurl Hne Hacc) as (e & _ & E).
      eexists. right. exists url. split; [exact Hurl |]. split; [exact Hne |].
      exact E.
Qed.

Lemma for_alerts_cons (w : world) (n : nat) (alert : string) (rest : list string) :
  for_alerts w n (alert :: rest)
  = (events (send_discord_alert w n alert) ++ events (for_alerts w (S n) rest),
     result (for_alerts w (S n) rest)).
Proof.
  cbn [for_alerts]. destruct (send_shape w n alert) as [line [[_ E] | (u & _ & _ & E)]];
    rewrite E; unfold bind, events, result; cbn [fst snd];
    destruct (for_alerts w (S n) rest) as [t r]; reflexivity.
Qed.

Lemma for_alerts_posts (w : world) (url : string) (alerts : list string) (n : nat) :
  DISCORD_WEBHOOK_URL w = Some url -> url <> "" ->
  filter (fun ev => is_post ev = true) (events (for_alerts w n alerts))
    = map (delivery url) alerts
  /\ length (events (for_alerts w n alerts)) = (2 * length alerts)%nat
  /\ result (for_alerts w n alerts) = Returned tt.
Proof.
  intros Hurl Hne. revert n. induction alerts as [| alert rest IH]; intros n.
  - repeat split.
  - destruct (IH (S n)) as (IHp & IHl & IHr).
    assert (E : exists line, events (send_discord_alert w n alert)
                             = [delivery url alert; Stdout line]).
    { destruct (accepted w n) eqn:Hacc.
      - rewrite (send_accepted _ _ _ _ Hurl Hne Hacc). by eexists.
      - destruct (send_refused w n alert url Hurl Hne Hacc) as (e & _ & ->).
        by eexists. }
    destruct E as [line E].
    rewrite for_alerts_cons, E.
    set (later := events (for_alerts w (S n) rest)) in *.
    set (outcome := result (for_alerts w (S n) rest)) in *.
    unfold events, result. cbn [fst snd app].
    split; [| split; [| exact IHr]].
    + rewrite filter_cons_True by reflexivity.
      rewrite filter_cons_False by (simpl; discriminate).
      cbn [map]. by rewrite IHp.
    + cbn [length]. rewrite IHl. lia.
Qed.

(** X4. A delivery never raises, and its log line tells the outcome: with
    a webhook configured, the alert is posted once; the success line is
    printed when the webhook answers with a status outside 400-599, and
    otherwise the exception (no answer, or a 4xx/5xx status) is caught
    and printed in the failure line. *)
Theorem delivery_logs_its_outcome
    (w : world) (n : nat) (message url : string) :
  DISCORD_WEBHOOK_URL w = Some url -> url <> "" ->
  (accepted w n = true ->
     send_discord_alert w n message
     = ([delivery url message; Stdout ("提醒已发送: " +:+ message)], Returned tt))
  /\ (accepted w n = false ->
      exists e,
        delivery_error w n = Some e
        /\ send_discord_alert w n message
           = ([delivery url message;
               Stdout ("发送Discord提醒失败: " +:+ str_exn e)],
              Returned tt)).
Proof.
  intros Hurl Hne. split; intros Hacc.
  - by apply send_accepted.
  - by apply send_refused.
Qed.

(** A webhook that answers 429 to the first POST. *)
Lemma delivery_logs_its_outcome_witness :
  exists e,
    delivery_error (world_flaky bnb_at_high) 0 = Some e
    /\ send_discord_alert (world_flaky bnb_at_high) 0 "alert"
       = ([delivery "https://discord.example/api/webhooks/1" "alert";
           Stdout ("发送Discord提醒失败: " +:+ str_exn e)],
          Returned tt).
Proof.
  destruct (delivery_logs_its_outcome (world_flaky bnb_at_high) 0 "alert"
              "https://discord.example/api/webhooks/1") as [_ Hrefused].
  - reflexivity.
  - discriminate.
  - apply Hrefused. reflexivity.
Defined.

(** X5. With a webhook configured, the delivery loop posts every alert
    exactly once, in order, whatever the webhook answers: a failed
    delivery does not stop the following ones, and the loop returns
    normally. *)
Theorem deliveries_continue_after_failures
    (w : world) (url : string) (alerts : list string) (n : nat) :
  DISCORD_WEBHOOK_URL w = Some url -> url <> "" ->
  filter (fun ev => is_post ev = true) (events (for_alerts w n alerts))
    = map (delivery url) alerts
  /\ length (events (for_alerts w n alerts)) = (2 * length alerts)%nat
  /\ result (for_alerts w n alerts) = Returned tt.
Proof.
  intros Hurl Hne.
  destruct (for_alerts_posts w url alerts n Hurl Hne) as (Hposts & Hlen & Hres).
  split; [exact Hposts |]. split; [exact Hlen | exact Hres].
Qed.

(** The first of two deliveries is refused; both alerts are posted. *)
Lemma deliveries_continue_after_failures_witness :
  filter (fun ev => is_post ev = true)
    (events (for_alerts (world_flaky bnb_at_high) 0 ["first"; "second"]))
  = [ delivery "https://discord.example/api/webhooks/1" "first";
      delivery "https://discord.example/api/webhooks/1" "second" ].
Proof.
  destruct (deliveries_continue_after_failures (world_flaky bnb_at_high)
              "https://discord.example/api/webhooks/1" ["first"; "second"] 0)
    as (Hposts & _ & _).
  - reflexivity.
  - discriminate.
  - exact Hposts.
Defined.

(** X6. Without a webhook URL (the variable unset, or set to the empty
    string) the delivery loop makes no request at all: it prints the
    warning once per alert and returns normally. *)
Theorem no_webhook_no_request
    (w : world) (alerts : list string) (n : nat) :
  webhook_unset w = true ->
  for_alerts w n alerts
  = (map (fun _ => Stdout "未设置Discord Webhook URL") alerts, Returned tt).
Proof.
  intros Hw. revert n. induction alerts as [| alert rest IH]; intros n;
    [reflexivity |].
  rewrite for_alerts_cons, (send_unset _ _ _ Hw), IH. reflexivity.
Qed.

Lemma no_webhook_no_request_witness :
  for_alerts (world_mute bnb_at_high) 0 ["first"; "second"]
  = ([Stdout "未设置Discord Webhook URL"; Stdout "未设置Discord Webhook URL"],
     Returned tt).
Proof.
  apply (no_webhook_no_request (world_mute bnb_at_high) ["first"; "second"] 0).
  reflexivity.
Defined.

(** ** Main *)

(** What [main] does once the evaluator has returned [alerts]. *)
Lemma main_with_after_fetch
    (evaluator : gmap string (gmap string Q) -> M (list string))
    (monitors : list (string * thresholds)) (w : world)
    (t : list event) (p : option (gmap string (gmap string Q))) :
  get_crypto_prices monitors w = (t, Returned p) ->
  main_with evaluator monitors w
  = if not_prices p then
      (banner w ++ t ++ [Stdout "无法获取价格数据"], Returned tt)
    else
      match evaluator (default ∅ p) with
      | (lines, Raised e) => (banner w ++ t ++ lines, Raised e)
      | (lines, Returned []) =>
          (banner w ++ t ++ lines ++ [Stdout "没有触发任何价格阈值"], Returned tt)
      | (lines, Returned (alert :: rest)) =>
          (banner w ++ t ++ lines ++ events (for_alerts w 0 (alert :: rest)),
           result (for_alerts w 0 (alert :: rest)))
      end.
Proof.
  intros Hget. unfold main_with. rewrite Hget.
  unfold bind at 1 2 3 4, print, emit. cbn [app].
  destruct (not_prices p).
  - unfold banner. cbn [app]. reflexivity.
  - unfold bind. destruct (evaluator (default ∅ p)) as [lines [e | [| alert rest]]].
    + unfold banner. cbn [app]. reflexivity.
    + unfold banner. cbn [app]. reflexivity.
    + destruct (for_alerts w 0 (alert :: rest)) as [posts r].
      unfold banner, events, result. cbn [app fst snd]. reflexivity.
Qed.

(** The fetch either fails with an exception or yields a mapping. *)
Lemma fetch_outcome (w : world) :
  (exists e, fetch_error w = Some e)
  \/ (exists r prices,
        get_reply w = Got r /\ ~ (400 <= status_code r < 600)%Z
        /\ content r = PriceMapping prices).
Proof.
  unfold fetch_error. destruct (get_reply w) as [err | r]; [left; by eexists |].
  destruct (result (raise_for_status r)) as [e | []] eqn:Hr; [left; by eexists |].
  destruct (content r) as [err | prices] eqn:Hc; [left; by eexists |].
  right. exists r, prices. split; [reflexivity |]. split; [| exact Hc].
  intros Hcode. apply raise_for_status_raises in Hcode as [e He]. congruence.
Qed.

Lemma priced_empty (monitors : list (string * thresholds)) :
  priced monitors ∅ = true.
Proof.
  unfold priced. apply forallb_forall. intros item _. by rewrite lookup_empty.
Qed.

Lemma for_alerts_quiet (w : world) (alerts : list string) (n : nat) :
  Forall (fun ev => is_get ev = false) (events (for_alerts w n alerts))
  /\ (webhook_unset w = true ->
      Forall (fun ev => is_post ev = false) (events (for_alerts w n alerts)))
  /\ result (for_alerts w n alerts) = Returned tt.
Proof.
  revert n. induction alerts as [| alert rest IH]; intros n.
  - repeat split; intros; apply Forall_nil_2.
  - destruct (IH (S n)) as (IHg & IHp & IHr). rewrite for_alerts_cons.
    unfold events at 1 3, result at 1. cbn [fst snd].
    split; [| split; [| exact IHr]].
    + apply Forall_app. split; [| exact IHg].
      destruct (send_shape w n alert) as [line [[_ E] | (u & _ & _ & E)]];
        rewrite E; unfold events; cbn [fst]; repeat constructor.
    + intros Hw. apply Forall_app. split; [| by apply IHp].
      rewrite (send_unset _ _ _ Hw). unfold events. cbn [fst]. repeat constructor.
Qed.

Lemma stdout_is_no_request (l : list event) :
  Forall (fun ev => is_stdout ev = true) l ->
  Forall (fun ev => is_get ev = false) l /\ Forall (fun ev => is_post ev = false) l.
Proof.
  intros H. split; eapply Forall_impl; try exact H;
    intros [line | u ps | u c n] Hev; simpl in *; congruence.
Qed.

Lemma get_crypto_prices_cases (monitors : list (string * thresholds)) (w : world) :
  (exists e, fetch_error w = Some e
     /\ get_crypto_prices monitors w
        = ([price_request monitors; Stdout ("获取价格失败: " +:+ str_exn e)],
           Returned None))
  \/ (exists r prices,
        get_reply w = Got r /\ ~ (400 <= status_code r < 600)%Z
        /\ content r = PriceMapping prices
        /\ fetch_error w = None
        /\ get_crypto_prices monitors w
           = ([price_request monitors], Returned (Some prices))).
Proof.
  destruct (fetch_outcome w) as [[e He] | (r & prices & Hr & Hcode & Hc)].
  - left. exists e. split; [exact He | by apply get_crypto_prices_failure].
  - right. exists r, prices. repeat split; try assumption.
    + unfold fetch_error. rewrite Hr, Hc.
      destruct (result (raise_for_status r)) as [e | []] eqn:He; [| reflexivity].
      exfalso. apply Hcode, raise_for_status_raises. by eexists.
    + by apply get_crypto_prices_success with r.
Qed.

(** The events of a run: the banner, the one request, then events that
    are no GET, and no POST either when no webhook is configured. *)
Lemma main_events (monitors : list (string * thresholds)) (w : world) :
  exists tail,
    events (main_with (check_price_thresholds monitors) monitors w)
      = banner w ++ price_request monitors :: tail
    /\ Forall (fun ev => is_get ev = false) tail
    /\ (webhook_unset w = true -> Forall (fun ev => is_post ev = false) tail).
Proof.
  destruct (get_crypto_prices_cases monitors w)
    as [(e & _ & Hget) | (r & prices & _ & _ & _ & _ & Hget)];
    rewrite (main_with_after_fetch _ _ _ _ _ Hget).
  - eexists. cbn [not_prices app events fst]. split; [reflexivity |].
    split; [| intros _]; repeat constructor.
  - cbn [not_prices default id]. destruct (size prices =? 0)%nat.
    + eexists. cbn [app events fst]. split; [reflexivity |].
      split; [| intros _]; repeat constructor.
    + pose proof (for_monitors_stdout monitors prices []) as Hout.
      fold (check_price_thresholds monitors prices) in Hout.
      destruct (check_price_thresholds monitors prices)
        as [lines [e | [| alert rest]]]; unfold events in Hout; cbn [fst] in Hout;
        apply stdout_is_no_request in Hout as [Hg Hp].
      * exists lines. cbn [app events fst]. split; [reflexivity |].
        split; [exact Hg | intros _; exact Hp].
      * exists (lines ++ [Stdout "没有触发任何价格阈值"]).
        cbn [app events fst]. split; [reflexivity |].
        split; [| intros _]; apply Forall_app; split; try assumption;
          repeat constructor.
      * destruct (for_alerts_quiet w (alert :: rest) 0) as (Fg & Fp & _).
        exists (lines ++ events (for_alerts w 0 (alert :: rest))).
        cbn [app events fst]. split; [reflexivity |].
        split; [| intros Hw]; apply Forall_app; split; try assumption.
        by apply Fp.
Qed.

Lemma filter_none {A} (P : A -> bool) (l : list A) :
  Forall (fun x => P x = false) l -> filter (fun x => P x = true) l = [].
Proof.
  induction 1 as [| x l Hx _ IH]; [reflexivity |].
  rewrite filter_cons_False by (rewrite Hx; discriminate). exact IH.
Qed.

Lemma banner_no_request (w : world) :
  filter (fun ev => is_get ev = true) (banner w) = []
  /\ filter (fun ev => is_post ev = true) (banner w) = [].
Proof. split; reflexivity. Qed.

Lemma main_result_success (monitors : list (string * thresholds)) (w : world)
    (r : Response) (prices : gmap string (gmap string Q)) :
  get_reply w = Got r -> ~ (400 <= status_code r < 600)%Z ->
  content r = PriceMapping prices ->
  result (main_with (check_price_thresholds monitors) monitors w)
  = if priced monitors prices then Returned tt else Raised (KeyError "usd").
Proof.
  intros Hr Hcode Hc.
  rewrite (main_with_after_fetch _ _ _ _ _
             (get_crypto_prices_success monitors w r prices Hr Hcode Hc)).
  cbn [not_prices default id]. destruct (size prices =? 0)%nat eqn:Hsize.
  - apply Nat.eqb_eq, map_size_empty_iff in Hsize. subst prices.
    by rewrite priced_empty.
  - destruct (priced monitors prices) eqn:Hp.
    + rewrite (check_priced _ _ Hp).
      destruct (flat_map (alerts_of prices) monitors) as [| alert rest];
        [reflexivity |].
      cbn [result snd]. apply for_alerts_quiet.
    + destruct (unpriced_split _ _ Hp) as (b & c & th & a & s & -> & Hb & Hs & Hn).
      unfold check_price_thresholds.
      rewrite (for_monitors_unpriced b a c th prices s [] Hb Hs Hn). reflexivity.
Qed.

(** X7. Nothing in [main] catches the evaluator's exception: when the
    fetch succeeds and the mapping it returns holds, for some configured
    coin, a sample without the 'usd' key, the run ends in
    [KeyError('usd')].  Up to there it has printed the banner, made the
    request and printed what the evaluator printed; it posts nothing. *)
Theorem unpriced_sample_aborts_run
    (monitors : list (string * thresholds)) (w : world)
    (r : Response) (prices : gmap string (gmap string Q)) :
  get_reply w = Got r -> ~ (400 <= status_code r < 600)%Z ->
  content r = PriceMapping prices ->
  priced monitors prices = false ->
  result (main_with (check_price_thresholds monitors) monitors w)
    = Raised (KeyError "usd")
  /\ events (main_with (check_price_thresholds monitors) monitors w)
     = banner w ++ price_request monitors
         :: events (check_price_thresholds monitors prices)
  /\ filter (fun ev => is_post ev = true)
       (events (main_with (check_price_thresholds monitors) monitors w)) = [].
Proof.
  intros Hr Hcode Hc Hp.
  destruct (unpriced_split _ _ Hp) as (b & c & th & a & s & E & Hb & Hs & Hn).
  assert (Hrun : check_price_thresholds monitors prices
                 = (flat_map (lines_of prices) b, Raised (KeyError "usd"))).
  { rewrite E. unfold check_price_thresholds.
    exact (for_monitors_unpriced b a c th prices s [] Hb Hs Hn). }
  assert (Hmain : main_with (check_price_thresholds monitors) monitors w
                  = (banner w ++ price_request monitors
                       :: flat_map (lines_of prices) b,
                     Raised (KeyError "usd"))).
  { rewrite (main_with_after_fetch _ _ _ _ _
               (get_crypto_prices_success monitors w r prices Hr Hcode Hc)).
    cbn [not_prices default id].
    destruct (size prices =? 0)%nat eqn:Hsize.
    - apply Nat.eqb_eq, map_size_empty_iff in Hsize. subst prices.
      rewrite priced_empty in Hp. discriminate.
    - rewrite Hrun. reflexivity. }
  rewrite Hmain, Hrun. cbn [result events fst snd].
  split; [reflexivity |]. split; [reflexivity |].
  pose proof (for_monitors_stdout monitors prices []) as Hout.
  fold (check_price_thresholds monitors prices) in Hout.
  rewrite Hrun in Hout. unfold events in Hout. cbn [fst] in Hout.
  rewrite filter_app, (proj2 (banner_no_request w)).
  rewrite filter_cons_False by (simpl; discriminate).
  apply filter_none. by apply stdout_is_no_request.
Qed.

Lemma unpriced_sample_aborts_run_witness :
  result (main (world_ok btc_then_unpriced_bnb)) = Raised (KeyError "usd").
Proof.
  apply (unpriced_sample_aborts_run MONITORS (world_ok btc_then_unpriced_bnb)
    {| status_code := 200; reason := "OK"; url := COINGECKO_API_URL;
       content := PriceMapping btc_then_unpriced_bnb |} btc_then_unpriced_bnb).
  - reflexivity.
  - simpl. lia.
  - reflexivity.
  - vm_compute. reflexivity.
Defined.

Lemma flat_map_nil {A B} (f : A -> list B) (l : list A) :
  (forall x, x ∈ l -> f x = []) -> flat_map f l = [].
Proof.
  induction l as [| x l IH]; intros H; [reflexivity |].
  cbn [flat_map]. rewrite (H x) by apply list_elem_of_here.
  apply IH. intros y Hy. apply H. by apply list_elem_of_further.
Qed.

(** X8. A run in which the fetch succeeds with a non-empty mapping and
    every fetched price lies strictly between its coin's thresholds
    posts nothing: after the banner and the request it prints the price
    line of each fetched coin, then the line saying that no threshold
    was triggered, and returns. *)
Theorem quiet_run
    (monitors : list (string * thresholds)) (w : world)
    (r : Response) (prices : gmap string (gmap string Q)) :
  get_reply w = Got r -> ~ (400 <= status_code r < 600)%Z ->
  content r = PriceMapping prices ->
  prices <> ∅ ->
  priced monitors prices = true ->
  (forall c th sample price,
     (c, th) ∈ monitors -> prices !! c = Some sample ->
     sample !! "usd" = Some price ->
     (low_threshold th < price)%Q /\ (price < high_threshold th)%Q) ->
  main_with (check_price_thresholds monitors) monitors w
  = (banner w ++ price_request monitors
       :: flat_map (lines_of prices) monitors
       ++ [Stdout "没有触发任何价格阈值"],
     Returned tt).
Proof.
  intros Hr Hcode Hc Hne Hp Hcalm.
  rewrite (main_with_after_fetch _ _ _ _ _
             (get_crypto_prices_success monitors w r prices Hr Hcode Hc)).
  cbn [not_prices default id].
  destruct (size prices =? 0)%nat eqn:Hsize.
  { apply Nat.eqb_eq, map_size_empty_iff in Hsize. contradiction. }
  rewrite (check_priced _ _ Hp).
  rewrite (flat_map_nil (alerts_of prices) monitors); [reflexivity |].
  intros [c th] Hin. unfold alerts_of. cbn [fst snd].
  destruct (prices !! c) as [sample |] eqn:Hs; [| reflexivity].
  destruct (sample !! "usd") as [price |] eqn:Hprice; [| reflexivity].
  destruct (Hcalm c th sample price Hin Hs Hprice) as [Hlo Hhi].
  unfold alerts_for_price.
  rewrite (proj2 (le_false _ _)) by (by apply Qlt_not_le).
  by rewrite (proj2 (ge_false _ _)) by (by apply Qlt_not_le).
Qed.

Lemma quiet_run_witness :
  main (world_ok btc_calm)
  = (banner (world_ok btc_calm) ++ price_request MONITORS
       :: flat_map (lines_of btc_calm) MONITORS
       ++ [Stdout "没有触发任何价格阈值"],
     Returned tt).
Proof.
  apply (quiet_run MONITORS (world_ok btc_calm)
    {| status_code := 200; reason := "OK"; url := COINGECKO_API_URL;
       content := PriceMapping btc_calm |} btc_calm).
  - reflexivity.
  - simpl. lia.
  - reflexivity.
  - intros E. apply (f_equal (fun m => m !! "bitcoin")) in E.
    vm_compute in E. discriminate.
  - vm_compute. reflexivity.
  - intros c th sample price Hin Hs Hprice. unfold MONITORS in Hin.
    apply elem_of_cons in Hin as [[= -> ->] | Hin].
    { vm_compute in Hs. injection Hs as <-. vm_compute in Hprice.
      injection Hprice as <-. split; reflexivity. }
    apply elem_of_cons in Hin as [[= -> ->] | Hin];
      [vm_compute in Hs; discriminate |].
    apply elem_of_cons in Hin as [[= -> ->] | Hin];
      [vm_compute in Hs; discriminate |].
    by apply elem_of_nil in Hin.
Defined.

Lemma filter_stdout_posts (l : list event) :
  Forall (fun ev => is_stdout ev = true) l ->
  filter (fun ev => is_post ev = true) l = [].
Proof. intros H. apply filter_none. by apply stdout_is_no_request. Qed.

(** X9. When the fetch succeeds, every listed sample is priced and a
    webhook is configured, a run posts exactly the alerts the evaluator
    returned, each once and in the evaluator's order, and returns
    normally whatever the webhook answers. *)
Theorem run_delivers_every_alert
    (monitors : list (string * thresholds)) (w : world)
    (r : Response) (prices : gmap string (gmap string Q)) (url : string) :
  get_reply w = Got r -> ~ (400 <= status_code r < 600)%Z ->
  content r = PriceMapping prices ->
  priced monitors prices = true ->
  DISCORD_WEBHOOK_URL w = Some url -> url <> "" ->
  filter (fun ev => is_post ev = true)
    (events (main_with (check_price_thresholds monitors) monitors w))
    = map (delivery url) (flat_map (alerts_of prices) monitors)
  /\ result (main_with (check_price_thresholds monitors) monitors w) = Returned tt.
Proof.
  intros Hr Hcode Hc Hp Hurl Hne.
  split; [| by rewrite (main_result_success monitors w r prices Hr Hcode Hc), Hp].
  rewrite (main_with_after_fetch _ _ _ _ _
             (get_crypto_prices_success monitors w r prices Hr Hcode Hc)).
  cbn [not_prices default id].
  destruct (size prices =? 0)%nat eqn:Hsize.
  - apply Nat.eqb_eq, map_size_empty_iff in Hsize. subst prices.
    rewrite (flat_map_nil (alerts_of ∅) monitors); [reflexivity |].
    intros [c th] _. unfold alerts_of. cbn [fst]. by rewrite lookup_empty.
  - rewrite (check_priced _ _ Hp).
    pose proof (for_monitors_stdout monitors prices []) as Hout.
    fold (check_price_thresholds monitors prices) in Hout.
    rewrite (check_priced _ _ Hp) in Hout. unfold events in Hout. cbn [fst] in Hout.
    apply filter_stdout_posts in Hout.
    destruct (flat_map (alerts_of prices) monitors) as [| alert rest] eqn:Halerts.
    + cbn [events fst]. rewrite !filter_app, Hout. reflexivity.
    + cbn [events fst]. rewrite !filter_app, Hout.
      destruct (for_alerts_posts w url (alert :: rest) 0 Hurl Hne) as (Hposts & _).
      rewrite Hposts. reflexivity.
Qed.

(** Bitcoin under its low threshold and binance coin at its high one; the
    webhook refuses the first POST. *)
Lemma run_delivers_every_alert_witness :
  filter (fun ev => is_post ev = true) (events (main (world_flaky btc_low_bnb_high)))
  = [ delivery "https://discord.example/api/webhooks/1"
        (below_alert_msg "BTC" 39000 40000 0);
      delivery "https://discord.example/api/webhooks/1"
        (above_alert_msg "BNB" 500 500 0) ]
  /\ result (main (world_flaky btc_low_bnb_high)) = Returned tt.
Proof.
  destruct (run_delivers_every_alert MONITORS (world_flaky btc_low_bnb_high)
    {| status_code := 200; reason := "OK"; url := COINGECKO_API_URL;
       content := PriceMapping btc_low_bnb_high |} btc_low_bnb_high
    "https://discord.example/api/webhooks/1") as [Hposts Hres].
  - reflexivity.
  - simpl. lia.
  - reflexivity.
  - vm_compute. reflexivity.
  - reflexivity.
  - discriminate.
  - split; [exact Hposts | exact Hres].
Defined.

(** X10. With no webhook URL configured (unset or empty), no run ever
    makes a POST, whatever the fetch returns. *)
Theorem no_webhook_run_never_posts
    (monitors : list (string * thresholds)) (w : world) :
  webhook_unset w = true ->
  filter (fun ev => is_post ev = true)
    (events (main_with (check_price_thresholds monitors) monitors w)) = [].
Proof.
  intros Hw. destruct (main_events monitors w) as (tail & -> & _ & Hposts).
  rewrite filter_app, (proj2 (banner_no_request w)).
  rewrite filter_cons_False by (simpl; discriminate).
  apply filter_none. by apply Hposts.
Qed.

Lemma no_webhook_run_never_posts_witness :
  filter (fun ev => is_post ev = true)
    (events (main (world_mute btc_low_bnb_high))) = [].
Proof.
  apply (no_webhook_run_never_posts MONITORS (world_mute btc_low_bnb_high)).
  reflexivity.
Defined.

(** X11. Every run makes exactly one GET, the price request for the
    configured coins, and makes it right after the banner; there is no
    retry, whatever the reply. *)
Theorem one_request_per_run
    (monitors : list (string * thresholds)) (w : world) :
  filter (fun ev => is_get ev = true)
    (events (main_with (check_price_thresholds monitors) monitors w))
  = [price_request monitors]
  /\ exists tail,
       events (main_with (check_price_thresholds monitors) monitors w)
       = banner w ++ price_request monitors :: tail.
Proof.
  destruct (main_events monitors w) as (tail & E & Hgets & _).
  split; [| by exists tail].
  rewrite E, filter_app, (proj1 (banner_no_request w)).
  rewrite filter_cons_True by reflexivity.
  by rewrite (filter_none is_get tail Hgets).
Qed.

(** X12. No exception leaves the fetcher, and it makes one request: it
    always returns, after the GET and at most one printed line.  When
    the endpoint answers with a status outside 400-599 and a body that
    decodes to a price mapping, it returns that mapping unchanged and
    prints nothing. *)
Theorem fetcher_never_raises
    (monitors : list (string * thresholds)) (w : world) :
  (exists v, result (get_crypto_prices monitors w) = Returned v)
  /\ (exists log,
        events (get_crypto_prices monitors w) = price_request monitors :: log
        /\ (length log <= 1)%nat
        /\ Forall (fun ev => is_stdout ev = true) log)
  /\ (forall r prices,
        get_reply w = Got r -> ~ (400 <= status_code r < 600)%Z ->
        content r = PriceMapping prices ->
        get_crypto_prices monitors w
        = ([price_request monitors], Returned (Some prices))).
Proof.
  split; [| split].
  - destruct (get_crypto_prices_cases monitors w)
      as [(e & _ & ->) | (r & prices & _ & _ & _ & _ & ->)]; by eexists.
  - destruct (get_crypto_prices_cases monitors w)
      as [(e & _ & ->) | (r & prices & _ & _ & _ & _ & ->)];
      eexists; cbn [events fst]; (split; [reflexivity |]);
      (split; [simpl; lia | repeat constructor]).
  - intros r prices Hr Hcode Hc. by apply get_crypto_prices_success with r.
Qed.

Lemma fetcher_never_raises_witness :
  get_crypto_prices MONITORS (world_ok bnb_at_high)
  = ([price_request MONITORS], Returned (Some bnb_at_high)).
Proof.
  destruct (fetcher_never_raises MONITORS (world_ok bnb_at_high))
    as (_ & _ & Hok).
  apply (Hok {| status_code := 200; reason := "OK"; url := COINGECKO_API_URL;
                content := PriceMapping bnb_at_high |}).
  - reflexivity.
  - simpl. lia.
  - reflexivity.
Defined.

(** ** The summary *)

Example fmt_plus_examples :
  Py.fmt_plus_2f (5404319552844595 # 4503599627370496) = "+1.20"
  /\ Py.fmt_plus_2f 0 = "+0.00"
  /\ Py.fmt_plus_2f (-5404319552844595 # 4503599627370496) = "-1.20"
  /\ Py.fmt_plus_2f (1152921504606847 # 1152921504606846976) = "+0.00"
  /\ Py.fmt_plus_2f (-1152921504606847 # 1152921504606846976) = "-0.00".
Proof. repeat split; vm_compute; reflexivity. Qed.

Lemma for_summary_cons (c : string) (th : thresholds)
    (rest : list (string * thresholds)) (prices : gmap string (gmap string Q))
    (summary : string) :
  for_summary ((c, th) :: rest) prices summary =
  match prices !! c with
  | None => for_summary rest prices summary
  | Some sample =>
      match sample !! "usd" with
      | None => ([], Raised (KeyError "usd"))
      | Some price =>
          for_summary rest prices
            (summary +:+ summary_line th price (get sample "usd_24h_change" 0%Q))
      end
  end.
Proof.
  cbn [for_summary]. destruct (prices !! c) as [sample |]; [| reflexivity].
  unfold getitem. destruct (sample !! "usd") as [price |]; [| reflexivity].
  unfold bind at 1, ret at 1. unfold summary_line.
  destruct (for_summary rest prices _) as [t o]. reflexivity.
Qed.

Lemma for_summary_priced (items : list (string * thresholds))
    (prices : gmap string (gmap string Q)) (summary : string) :
  priced items prices = true ->
  for_summary items prices summary
  = ([], Returned (summary +:+ summary_text prices items)).
Proof.
  revert summary. induction items as [| [c th] rest IH]; intros summary Hp.
  - cbn [for_summary summary_text fold_right]. by rewrite append_nil_r.
  - apply priced_cons in Hp as [Hrest Hc]. rewrite for_summary_cons.
    cbn [summary_text fold_right]. fold (summary_text prices rest).
    unfold summary_of at 1. cbn [fst snd].
    destruct (prices !! c) as [sample |]; [| by apply IH].
    destruct (Hc sample eq_refl) as [price ->].
    rewrite (IH _ Hrest). by rewrite append_assoc.
Qed.

Lemma for_summary_unpriced (before after : list (string * thresholds))
    (c : string) (th : thresholds) (prices : gmap string (gmap string Q))
    (sample : gmap string Q) (summary : string) :
  priced before prices = true ->
  prices !! c = Some sample ->
  sample !! "usd" = None ->
  for_summary (before ++ (c, th) :: after) prices summary
    = ([], Raised (KeyError "usd")).
Proof.
  intros Hb Hs Hnone. revert summary.
  induction before as [| [k v] before IH]; intros summary.
  - simpl app. by rewrite for_summary_cons, Hs, Hnone.
  - apply priced_cons in Hb as [Hrest Hk]. specialize (IH Hrest).
    simpl app. rewrite for_summary_cons.
    destruct (prices !! k) as [s |]; [| apply IH].
    destruct (Hk s eq_refl) as [price ->]. apply IH.
Qed.

(** X13. [create_summary] prints nothing and makes no request.  When
    every listed sample is priced it returns the header followed by one
    line for each configured coin that has a sample, in configuration
    order (a coin without a sample adds nothing); otherwise it raises
    [KeyError('usd')].  So it returns exactly when the evaluator does. *)
Theorem summary_lists_fetched_coins
    (monitors : list (string * thresholds)) (stamp : string)
    (prices : gmap string (gmap string Q)) :
  (priced monitors prices = true ->
   create_summary monitors stamp prices
   = ([], Returned (summary_header stamp +:+ summary_text prices monitors)))
  /\ (priced monitors prices = false ->
      create_summary monitors stamp prices = ([], Raised (KeyError "usd")))
  /\ ((exists text, result (create_summary monitors stamp prices) = Returned text)
      <-> exists alerts,
            result (check_price_thresholds monitors prices) = Returned alerts)
  /\ (forall before c th after,
        monitors = before ++ (c, th) :: after -> prices !! c = None ->
        summary_text prices monitors = summary_text prices (before ++ after)).
Proof.
  assert (H1 : priced monitors prices = true ->
     create_summary monitors stamp prices
     = ([], Returned (summary_header stamp +:+ summary_text prices monitors))).
  { intros Hp. unfold create_summary. by rewrite (for_summary_priced _ _ _ Hp). }
  assert (H2 : priced monitors prices = false ->
     create_summary monitors stamp prices = ([], Raised (KeyError "usd"))).
  { intros Hp.
    destruct (unpriced_split _ _ Hp) as (b & c & th & a & s & -> & Hb & Hs & Hn).
    unfold create_summary. by apply for_summary_unpriced with s. }
  split; [exact H1 |]. split; [exact H2 |]. split.
  - destruct (priced monitors prices) eqn:Hp.
    + rewrite (H1 eq_refl), (check_priced _ _ Hp). split; intros _; by eexists.
    + rewrite (H2 eq_refl). split.
      * intros [text Ht]. discriminate.
      * intros [alerts Ha]. apply returned_priced in Ha. congruence.
  - intros before c th after -> Hnone. unfold summary_text.
    rewrite !fold_right_app. cbn [fold_right]. unfold summary_of at 2.
    cbn [fst]. by rewrite Hnone.
Qed.

Lemma summary_lists_fetched_coins_witness :
  create_summary MONITORS "2024-05-01 12:00 UTC" btc_low_bnb_high
  = ([], Returned (summary_header "2024-05-01 12:00 UTC"
                     +:+ summary_text btc_low_bnb_high MONITORS))
  /\ create_summary MONITORS "2024-05-01 12:00 UTC" btc_then_unpriced_bnb
     = ([], Raised (KeyError "usd")).
Proof.
  split.
  - apply (summary_lists_fetched_coins MONITORS "2024-05-01 12:00 UTC"
             btc_low_bnb_high). vm_compute. reflexivity.
  - apply (summary_lists_fetched_coins MONITORS "2024-05-01 12:00 UTC"
             btc_then_unpriced_bnb). vm_compute. reflexivity.
Defined.


